(** * PlaneProject: standard atmosphere and take-off weight closure

    A shallow embedding of [PyPlanePackage/atmosphere/atmosphere.py],
    [PyPlanePackage/weight/weight.py], the constants of
    [Plane_Design_Package/constants.py] and the two [plane_mass.py] scripts.

    Conventions of the embedding.
    - A Python [float] is a real number of [R]; rounding is not modelled,
      and neither is the range of a double: the [OverflowError] of
      [math.pow] and of [**] and the [inf] of an overflowing [np.exp] have no
      counterpart.
    - A Python function that can raise returns [exc]; the exceptions are the
      ones the code can raise.
    - A value computed by numpy (an [ndarray] element or a [numpy.float64])
      never raises on a division by zero or an invalid power: it becomes
      [inf] or [nan] with a [RuntimeWarning].  Such a value is an [npfloat],
      whose [NonFinite] stands for [inf], [-inf] and [nan].
    - The weights the root-finder tries and the weight it hands back are
      finite. *)

From Stdlib Require Import Reals Lra String Ascii List Bool.
From Stdlib Require Import FunctionalExtensionality.
Import ListNotations.
Open Scope R_scope.

(** ** Python values and exceptions *)

Module Py.

Inductive exn : Set :=
| ValueError (msg : string)
| ZeroDivisionError
| TypeError
| NameError.

Inductive exc (A : Type) : Type :=
| Ok (a : A)
| Raise (e : exn).
Arguments Ok {A} a.
Arguments Raise {A} e.

Definition ret {A : Type} (a : A) : exc A := Ok a.

Definition bind {A B : Type} (m : exc A) (k : A -> exc B) : exc B :=
  match m with
  | Ok a => k a
  | Raise e => Raise e
  end.

(** [x / y] on Python floats. *)
Definition py_div (x y : R) : exc R :=
  if Req_dec_T y 0 then Raise ZeroDivisionError else Ok (x / y).

(** [x ** y] and [math.pow(x, y)] on Python floats, at a positive base, which
    is the only case the code reaches: the temperature ratio is positive
    (lemma [temperature_ratio_pos]) and [finesse] takes the power of a Mach
    number that is at least 1. *)
Definition py_pow (x y : R) : R := Rpower x y.

(** numpy values. *)
Inductive npfloat : Set :=
| Finite (r : R)
| NonFinite.

Definition np_lift2 (op : R -> R -> R) (x y : npfloat) : npfloat :=
  match x, y with
  | Finite a, Finite b => Finite (op a b)
  | _, _ => NonFinite
  end.

Definition np_add : npfloat -> npfloat -> npfloat := np_lift2 Rplus.
Definition np_sub : npfloat -> npfloat -> npfloat := np_lift2 Rminus.
Definition np_mul : npfloat -> npfloat -> npfloat := np_lift2 Rmult.

(** [x / y] where [y] is a numpy value: [0 / 0] is [nan], [x / 0] is an
    infinity. *)
Definition np_div (x y : R) : npfloat :=
  if Req_dec_T y 0 then NonFinite else Finite (x / y).

(** [x ** c] where [x] is a numpy value and [c] a negative exponent that is
    not an integer (every exponent of the structure-factor table is one):
    [0 ** c] is [inf] and a negative base gives [nan]. *)
Definition np_pow (x c : R) : npfloat :=
  if Rlt_dec 0 x then Finite (Rpower x c) else NonFinite.

(** [str.lower()] on ASCII text.  A character outside ASCII is left as it
    is: none lower-cases to a letter that occurs in a name of the table. *)
Definition ascii_lower (ch : ascii) : ascii :=
  let n := nat_of_ascii ch in
  if (65 <=? n)%nat && (n <=? 90)%nat then ascii_of_nat (n + 32) else ch.

Fixpoint lower (s : string) : string :=
  match s with
  | EmptyString => EmptyString
  | String ch rest => String (ascii_lower ch) (lower rest)
  end.

End Py.

Export Py.

Declare Scope exc_scope.
Delimit Scope exc_scope with exc.
Notation "x <- m ;; k" := (bind m (fun x => k))
  (at level 61, m at next level, right associativity) : exc_scope.
Open Scope exc_scope.

(** ** [Plane_Design_Package/constants.py] *)

Module Constants.

Definition earth_radius : R := 6.371e6.
Definition temperature_variation_altitudem : R := -6.5e-3.
Definition gravity_zero : R := 9.81.
Definition R_air : R := 286.9.
Definition gamma_air : R := 1.4.

Definition density_zero : R := 1.2237.
Definition temperature_zero : R := 288.16.
Definition pressure_zero : R := 101325.

Definition altitude_junction : R := 11e3.
Definition temperature_junction : R := 216.66.

End Constants.

(** ** [PyPlanePackage/atmosphere/atmosphere.py] *)

Module Atmosphere.

Record t : Type := mk {
  altitude : R;
  temperature_K : R;
  temperature_C : R;
  pressure : R;
  density : R;
  sound_speed : R;
  viscosity : R;
  gravity : R
}.

Definition compute_temperature (altitude : R) : R :=
  if Rlt_dec altitude Constants.altitude_junction then
    Constants.temperature_zero
    + Constants.temperature_variation_altitudem * altitude
  else Constants.temperature_junction.

Definition compute_pressure (altitude temperature_K : R) : R :=
  if Rlt_dec altitude Constants.altitude_junction then
    Constants.pressure_zero
    * py_pow (temperature_K / Constants.temperature_zero)
        (- Constants.gravity_zero
         / (Constants.temperature_variation_altitudem * Constants.R_air))
  else
    let pressure_junction :=
      Constants.pressure_zero
      * py_pow (Constants.temperature_junction / Constants.temperature_zero)
          (- Constants.gravity_zero
           / (Constants.temperature_variation_altitudem * Constants.R_air)) in
    pressure_junction
    * exp (- Constants.gravity_zero / (Constants.R_air * temperature_K)
           * (altitude - Constants.altitude_junction)).

Definition compute_density (altitude temperature_K : R) : R :=
  if Rlt_dec altitude Constants.altitude_junction then
    Constants.density_zero
    * py_pow (temperature_K / Constants.temperature_zero)
        (- Constants.gravity_zero
         / (Constants.temperature_variation_altitudem * Constants.R_air) - 1)
  else
    let density_junction :=
      Constants.density_zero
      * py_pow (Constants.temperature_junction / Constants.temperature_zero)
          (- Constants.gravity_zero
           / (Constants.temperature_variation_altitudem * Constants.R_air) - 1) in
    density_junction
    * exp (- Constants.gravity_zero / (Constants.R_air * temperature_K)
           * (altitude - Constants.altitude_junction)).

Definition compute_sound_speed (temperature_K : R) : R :=
  sqrt (Constants.gamma_air * Constants.R_air * temperature_K).

Definition compute_gravity (altitude : R) : exc R :=
  q <- py_div Constants.earth_radius (Constants.earth_radius + altitude) ;;
  ret (Constants.gravity_zero * q ^ 2).

(** The attributes [__init__] sets, as functions of the altitude. *)
Definition temperature_at (altitude : R) : R := compute_temperature altitude.
Definition pressure_at (altitude : R) : R :=
  compute_pressure altitude (compute_temperature altitude).
Definition density_at (altitude : R) : R :=
  compute_density altitude (compute_temperature altitude).
Definition sound_speed_at (altitude : R) : R :=
  compute_sound_speed (compute_temperature altitude).

Section Viscosity.

(** [Constants.viscosity_zero] and [Constants.sutherlands_constant] belong to
    [PyPlanePackage/constants.py], which is not among the sources: they are
    parameters of the model. *)
Variables viscosity_zero sutherlands_constant : R.

Definition compute_air_viscosity (temperature_K : R) : exc R :=
  let mu_0 := viscosity_zero in
  let T_0 := Constants.temperature_zero in
  let T := temperature_K in
  py_div (mu_0 * py_pow (T / T_0) (3 / 2) * (T_0 + sutherlands_constant))
         (T + sutherlands_constant).

(** [Atmosphere.__init__]. *)
Definition init (altitude : R) : exc t :=
  let temperature_K := compute_temperature altitude in
  let temperature_C := temperature_K - 273.15 in
  let pressure := compute_pressure altitude temperature_K in
  let density := compute_density altitude temperature_K in
  let sound_speed := compute_sound_speed temperature_K in
  viscosity <- compute_air_viscosity temperature_K ;;
  gravity <- compute_gravity altitude ;;
  ret (mk altitude temperature_K temperature_C pressure density sound_speed
          viscosity gravity).

End Viscosity.

End Atmosphere.

(** ** [scipy.optimize.fsolve]

    The root-finder is not code of the repository.  What the callers see of
    it: [fsolve] first evaluates [func] at the starting point [x0] (its shape
    check), so an exception of [func] there reaches the caller; it then runs
    MINPACK's [hybrd], here the parameter [hybrd]; called without
    [full_output] it hands back the last iterate only, and reports a failed
    convergence by a [RuntimeWarning], which is no exception. *)

Module Scipy.

Definition solver : Type := (R -> exc npfloat) -> R -> R -> exc R.

Definition fsolve (hybrd : solver) (func : R -> exc npfloat) (x0 xtol : R)
  : exc R :=
  _ <- func x0 ;;
  hybrd func x0 xtol.

(** An iteration that makes no progress and hands back its starting point.
    MINPACK ends so when the residual is [nan] where it starts: no step is
    ever accepted, and [fsolve] warns "The iteration is not making good
    progress". *)
Definition hybrd_no_progress : solver := fun _ x0 _ => Ok x0.

End Scipy.

(** ** [PyPlanePackage/weight/weight.py] *)

Module Weight.

Record t : Type := mk {
  take_off : R;
  empty : npfloat;
  fuel : npfloat;
  payload : R;
  structure_factor_attr : npfloat
}.

(** The closure test [abs(take_off - (empty + fuel + payload)) < tol] on the
    values of a result; a comparison with [nan] is false. *)
Definition closure_gap (w : t) : npfloat :=
  np_sub (Finite (take_off w))
    (np_add (np_add (empty w) (fuel w)) (Finite (payload w))).

Definition closes (w : t) (tol : R) : Prop :=
  match closure_gap w with
  | Finite d => Rabs d < tol
  | NonFinite => False
  end.

Definition fclimb (M_cruise : R) : R :=
  if Rlt_dec M_cruise 1 then 1 - 0.04 * M_cruise
  else 0.96 - 0.03 * (M_cruise - 1).

Definition finesse (Mach A : R) : R :=
  if Rlt_dec Mach 1 then A + 10
  else 11 * py_pow Mach (-0.5).

Definition floiter (M_cruise T_loiter TSFC A : R) : exc R :=
  let ldmax := finesse M_cruise A in
  q <- py_div (T_loiter * TSFC) (ldmax * 60) ;;
  let flinv := exp q in
  let fl := 1 / flinv in
  ret fl.

(** The closed table of [structure_factor]: the regression pair [(a, c)] of a
    lower-cased type name, or [ValueError]. *)
Definition structure_constants (type_lower : string) : exc (R * R) :=
  if (type_lower =? "glider")%string then ret (0.86, -0.05)
  else if (type_lower =? "powered-glider")%string then ret (0.91, -0.05)
  else if (type_lower =? "indiv-constr")%string then ret (1.19, -0.09)
  else if (type_lower =? "indiv-constr(comp)")%string then ret (1.15, -0.09)
  else if (type_lower =? "gen-aviation(1eng)")%string then ret (2.36, -0.18)
  else if (type_lower =? "gen-aviation(2eng)")%string then ret (1.51, -0.10)
  else if (type_lower =? "agricultural-plane")%string then ret (0.74, -0.03)
  else if (type_lower =? "turboprop(2eng)")%string then ret (0.96, -0.05)
  else if (type_lower =? "seaplane")%string then ret (1.09, -0.05)
  else if (type_lower =? "training-jet")%string then ret (1.59, -0.10)
  else if (type_lower =? "combat-jet")%string then ret (2.34, -0.13)
  else if (type_lower =? "transport-jet")%string then ret (1.02, -0.06)
  else if (type_lower =? "bomber")%string then ret (0.93, -0.07)
  else Raise (ValueError "Unknown aircraft type").

(** The names the table knows, in the order of the tests. *)
Definition categories : list string :=
  [ "glider"; "powered-glider"; "indiv-constr"; "indiv-constr(comp)";
    "gen-aviation(1eng)"; "gen-aviation(2eng)"; "agricultural-plane";
    "turboprop(2eng)"; "seaplane"; "training-jet"; "combat-jet";
    "transport-jet"; "bomber" ]%string.

(** [Wto] is a numpy value at both call sites: an element of the array
    [fsolve] iterates on, and the [numpy.float64] it returns. *)
Definition structure_factor (Type_ : string) (Wto : R) : exc npfloat :=
  let type_lower := lower Type_ in
  ac <- structure_constants type_lower ;;
  let sf := np_mul (Finite (fst ac)) (np_pow Wto (snd ac)) in
  ret sf.

Section Solve.

Variables viscosity_zero sutherlands_constant : R.
Variable hybrd : Scipy.solver.

Definition vitesse (mach altitude : R) : exc R :=
  atmosphere <- Atmosphere.init viscosity_zero sutherlands_constant altitude ;;
  ret (mach * Atmosphere.sound_speed atmosphere).

Definition fcruise (M_cruise H_cruise A Range TSFC : R) : exc R :=
  let ldmax := finesse M_cruise A in
  let ld := 0.866 * ldmax in
  vc <- vitesse M_cruise H_cruise ;;
  q <- py_div (Range * TSFC * 6080) (vc * ld * 3600) ;;
  let fcinv := exp q in
  let fc := 1 / fcinv in
  ret fc.

Definition fpoids (Wto Range : R) (Type_ : string)
    (Wpayload TSFC T_loiter A Fuel_res Fuel_trap M_cruise H_cruise : R)
  : exc npfloat :=
  let fdec := 0.975 in
  let fland := 0.975 in
  let payload_fraction := np_div Wpayload Wto in
  sf <- structure_factor Type_ Wto ;;
  let fcl := fclimb M_cruise in
  fcr <- fcruise M_cruise H_cruise A Range TSFC ;;
  flo <- floiter M_cruise T_loiter TSFC A ;;
  let resw :=
    np_sub (Finite 1)
      (np_add (np_add payload_fraction sf)
         (Finite ((1 - fdec * fcl) * (1 + fcr * flo)))) in
  ret resw.

Definition iterate_take_off_weight (Type_ : string)
    (M_cruise H_cruise A TSFC T_loiter Fuel_res Fuel_trap Wpayload
       flight_range : R)
  : exc (R * npfloat * npfloat) :=
  Wto <- Scipy.fsolve hybrd
           (fun Wto => fpoids Wto flight_range Type_ Wpayload TSFC T_loiter A
                         Fuel_res Fuel_trap M_cruise H_cruise)
           Wpayload 1e-6 ;;
  Sfactor <- structure_factor Type_ Wto ;;
  let Wempty := np_mul Sfactor (Finite Wto) in
  let Wfuel := np_sub (np_sub (Finite Wto) Wempty) (Finite Wpayload) in
  ret (Wto, Wempty, Wfuel).

(** [Weight.__init__]. *)
Definition init (Type_ : string)
    (M_cruise H_cruise A TSFC T_loiter Fuel_res Fuel_trap Wpayload
       flight_range : R)
  : exc t :=
  w <- iterate_take_off_weight Type_ M_cruise H_cruise A TSFC T_loiter
         Fuel_res Fuel_trap Wpayload flight_range ;;
  let '(take_off, empty, fuel) := w in
  sf <- structure_factor Type_ take_off ;;
  ret (mk take_off empty fuel Wpayload sf).

End Solve.

End Weight.

(** ** [PyPlanePackage/plane/plane_mass.py] and
       [Plane_Design_Package/Plane/plane_mass.py]

    The two scripts are plain functions followed by a call of [itertow] at
    module level.  [structure_factor], [fclimb] and [finesse] have the text of
    the methods of [weight.py]; the scripts differ in [fcruise] only. *)

Module PlaneMass.

Inductive variant : Set :=
| PyPlanePackage
| Plane_Design_Package.

(** What [print] has written: a label and a value per line. *)
Definition stdout : Type := list (string * npfloat).

(** The module-level names the functions read as globals. *)
Definition M_cruise : R := 0.82.
Definition H_cruise : R := 40000.
Definition A : R := 10.0.
Definition TSFC : R := 0.45.
Definition T_loiter : R := 45.
Definition Fuel_res : R := 0.05.
Definition Fuel_trap : R := 0.01.
Definition Wpayload : R := 30750.
Definition Range : R := 3500.
Definition Type_ : string := "jet-transport".

Definition structure_factor : string -> R -> exc npfloat :=
  Weight.structure_factor.
Definition fclimb : R -> R := Weight.fclimb.
Definition finesse : R -> R -> R := Weight.finesse.

Definition floiter (M_cruise H_cruise T_loiter TSFC A : R) : exc R :=
  let ldmax := finesse M_cruise A in
  q <- py_div (T_loiter * TSFC) (ldmax * 60) ;;
  let flinv := exp q in
  ret (1 / flinv).

(** [vitesse] takes two arguments in both scripts.  [PyPlanePackage] calls it
    with one ([TypeError]); [Plane_Design_Package] passes it [sound_speed], a
    name that is bound nowhere ([NameError], before the product by 3.2808). *)
Definition cruise_speed (v : variant) (M_cruise : R) : exc R :=
  match v with
  | PyPlanePackage => Raise TypeError
  | Plane_Design_Package => Raise NameError
  end.

Definition fcruise (v : variant) (M_cruise H_cruise A Range TSFC : R)
  : exc R :=
  let ldmax := finesse M_cruise A in
  let ld := 0.866 * ldmax in
  vc <- cruise_speed v M_cruise ;;
  q <- py_div (Range * TSFC * 6080) (vc * ld * 3600) ;;
  let fcinv := exp q in
  ret (1 / fcinv).

Definition fpoids (v : variant) (Wto Range : R) (Type_ : string)
    (Wpayload TSFC T_loiter A Fuel_res Fuel_trap : R) : exc npfloat :=
  let fdec := 0.975 in
  let fland := 0.975 in
  let payload_fraction := np_div Wpayload Wto in
  sf <- structure_factor Type_ Wto ;;
  let fcl := fclimb M_cruise in
  fcr <- fcruise v M_cruise H_cruise A Range TSFC ;;
  flo <- floiter M_cruise H_cruise T_loiter TSFC A ;;
  ret (np_sub (Finite 1)
         (np_add (np_add payload_fraction sf)
            (Finite ((1 - fdec * fcl) * (1 + fcr * flo))))).

(** [itertow] returns nothing and prints four lines once the weights are
    known; [out] is what has been printed so far. *)
Definition itertow (v : variant) (hybrd : Scipy.solver) (Type_ : string)
    (M_cruise H_cruise A TSFC T_loiter Fuel_res Fuel_trap Wpayload Range : R)
    (out : stdout) : exc unit * stdout :=
  match Scipy.fsolve hybrd
          (fun Wto => fpoids v Wto Range Type_ Wpayload TSFC T_loiter A
                        Fuel_res Fuel_trap)
          Wpayload 1e-6 with
  | Raise e => (Raise e, out)
  | Ok Wto =>
    match structure_factor Type_ Wto with
    | Raise e => (Raise e, out)
    | Ok Sfactor =>
      let Wempty := np_mul Sfactor (Finite Wto) in
      let Wfuel := np_sub (np_sub (Finite Wto) Wempty) (Finite Wpayload) in
      (Ok tt,
       out ++ [("Wto=", Finite Wto); ("Wempty=", Wempty); ("Wfuel=", Wfuel);
               ("Structure factor", Sfactor)]%string)
    end
  end.

(** Loading the module: the assignments above, then the call of [itertow]. *)
Definition load (v : variant) (hybrd : Scipy.solver) : exc unit * stdout :=
  itertow v hybrd Type_ M_cruise H_cruise A TSFC T_loiter Fuel_res Fuel_trap
    Wpayload Range [].

End PlaneMass.

(** ** [atmosphere/atmosphere.py]

    The first, single-layer copy of the class: the barometric formula for the
    pressure, the gas law for the density. *)

Module SimpleAtmosphere.

(** A Python number that is a float or, after a negative float was raised to
    a power that is not an integer, a complex number (its value is not
    modelled). *)
Inductive pynum : Set :=
| PyFloat (r : R)
| PyComplex.

(** [x ** y] on floats for a positive exponent [y] that is not an integer
    (5.25588 here): a power of 0 is 0.0, a power of a negative float is
    complex. *)
Definition float_pow (x y : R) : pynum :=
  if Rlt_dec 0 x then PyFloat (Rpower x y)
  else if Req_dec_T x 0 then PyFloat 0
  else PyComplex.

Definition scale (c : R) (x : pynum) : pynum :=
  match x with
  | PyFloat r => PyFloat (c * r)
  | PyComplex => PyComplex
  end.

Record t : Type := mk {
  altitude : R;
  temperature_K : R;
  temperature_C : R;
  pressure : pynum;
  density : pynum;
  gravity : R
}.

Definition compute_pressure (altitude : R) : pynum :=
  let p0 := 101325 in
  scale p0 (float_pow (1 - 0.0000225577 * altitude) 5.25588).

(** [pressure * M / (R * temperature_K)]: the division raises on a zero
    divisor, for a float and for a complex numerator alike. *)
Definition compute_density (pressure : pynum) (temperature_K : R) : exc pynum :=
  let M := 0.0289644 in
  let R_ := 8.31447 in
  if Req_dec_T (R_ * temperature_K) 0 then Raise ZeroDivisionError
  else
    match pressure with
    | PyFloat p => Ok (PyFloat (p * M / (R_ * temperature_K)))
    | PyComplex => Ok PyComplex
    end.

Definition compute_temperature (altitude : R) : R :=
  let T0 := 288.15 in
  let L := 0.0065 in
  T0 - L * altitude.

Definition compute_gravity (altitude : R) : exc R :=
  let G := 9.81 in
  let rayon_terre := 6.371e6 in
  q <- py_div rayon_terre (rayon_terre + altitude) ;;
  ret (G * q ^ 2).

Definition init (altitude : R) : exc t :=
  let temperature_K := compute_temperature altitude in
  let temperature_C := temperature_K - 273.15 in
  let pressure := compute_pressure altitude in
  density <- compute_density pressure temperature_K ;;
  gravity <- compute_gravity altitude ;;
  ret (mk altitude temperature_K temperature_C pressure density gravity).

End SimpleAtmosphere.

(** ** [PyPlanePackage/plane/ weight_to_surface_ratio.py]

    The cruise and climb wing loadings.  (The landing and take-off loadings
    call [fsolve] on a pair of starting points and are not modelled.) *)

Module WingLoading.

(** [np.sqrt], [np.arcsin], [np.sin] and [np.cos]: [nan] outside the domain
    and on [nan]. *)
Definition np_sqrt (x : npfloat) : npfloat :=
  match x with
  | Finite r => if Rle_dec 0 r then Finite (sqrt r) else NonFinite
  | NonFinite => NonFinite
  end.

Definition np_arcsin (x : R) : npfloat :=
  if Rle_dec (-1) x then
    if Rle_dec x 1 then Finite (asin x) else NonFinite
  else NonFinite.

Definition np_sin (x : npfloat) : npfloat :=
  match x with Finite r => Finite (sin r) | NonFinite => NonFinite end.

Definition np_cos (x : npfloat) : npfloat :=
  match x with Finite r => Finite (cos r) | NonFinite => NonFinite end.

(** [x / y] on numpy values, neither of them an infinity at the call sites:
    a zero divisor gives an infinity or [nan]. *)
Definition np_divide (x y : npfloat) : npfloat :=
  match x, y with
  | Finite a, Finite b => if Req_dec_T b 0 then NonFinite else Finite (a / b)
  | _, _ => NonFinite
  end.

(** [x < y] for a float [x] and a numpy value [y] that is finite or [nan]:
    a comparison with [nan] is false. *)
Definition np_less (x : R) (y : npfloat) : bool :=
  match y with
  | Finite b => if Rlt_dec x b then true else false
  | NonFinite => false
  end.

Definition oswald_efficiency (aspect_ratio : R) : R := 0.8.

Section WithAtmosphere.

Variables viscosity_zero sutherlands_constant : R.

Definition wing_loading_cruise
    (zero_lift_drag_coefficient aspect_ratio cruise_altitude speed : R)
    (engine_type : string) : exc npfloat :=
  atmosphere <- Atmosphere.init viscosity_zero sutherlands_constant
                  cruise_altitude ;;
  let density := Atmosphere.density atmosphere in
  let e := oswald_efficiency aspect_ratio in
  k <- py_div 1 (PI * aspect_ratio * e) ;;
  if (lower engine_type =? "prop")%string then
    q <- py_div zero_lift_drag_coefficient k ;;
    ret (np_mul (Finite (density * speed ^ 2 * 0.5)) (np_sqrt (Finite q)))
  else if (lower engine_type =? "jet")%string then
    q <- py_div zero_lift_drag_coefficient (3 * k) ;;
    ret (np_mul (Finite (density * speed ^ 2 * 0.5)) (np_sqrt (Finite q)))
  else Raise (ValueError "Invalid engine type. Must be 'prop' or 'jet'.").

(** The result with the lines [print] has written: every exception comes
    before the only [print]. *)
Definition wing_loading_climb
    (thrust_weight_ratio zero_lift_drag_coefficient aspect_ratio altitude
       rate_of_climb speed : R)
  : exc (bool * npfloat * npfloat * list string) :=
  let velocity := speed in
  s <- py_div rate_of_climb (60 * velocity) ;;
  let alpha := np_arcsin s in
  atmosphere <- Atmosphere.init viscosity_zero sutherlands_constant altitude ;;
  let density := Atmosphere.density atmosphere in
  let e := oswald_efficiency aspect_ratio in
  k <- py_div 1 (PI * aspect_ratio * e) ;;
  let twmin :=
    np_add (np_sin alpha)
      (np_mul (np_mul (Finite 2) (np_cos alpha))
         (np_sqrt (Finite (zero_lift_drag_coefficient * k)))) in
  let sufficient_trust := negb (np_less thrust_weight_ratio twmin) in
  if np_less thrust_weight_ratio twmin then
    ret (sufficient_trust, Finite 0, twmin, ["Insufficient thrust"%string])
  else
    let a := np_sub (Finite thrust_weight_ratio) (np_sin alpha) in
    let cos2 := np_mul (np_cos alpha) (np_cos alpha) in
    let denom :=
      np_divide (np_mul (np_mul (Finite 2) cos2) (Finite k))
        (Finite (0.5 * density * velocity ^ 2)) in
    let wing_loading :=
      np_divide
        (np_add a
           (np_sqrt
              (np_sub (np_mul a a)
                 (np_mul (np_mul (Finite (4 * zero_lift_drag_coefficient)) cos2)
                    (Finite k)))))
        denom in
    ret (sufficient_trust, wing_loading, twmin, []).

End WithAtmosphere.

End WingLoading.

(** * Properties *)

(** ** The error monad *)

Lemma bind_Ok {A B : Type} (m : exc A) (k : A -> exc B) (b : B) :
  bind m k = Ok b -> exists a, m = Ok a /\ k a = Ok b.
Proof.
  destruct m as [a|e]; simpl; intros H; [exists a; auto | discriminate].
Qed.

Lemma bind_Raise {A B : Type} (m : exc A) (k : A -> exc B) (e : exn) :
  m = Raise e -> bind m k = Raise e.
Proof. intros ->; reflexivity. Qed.

Lemma py_div_Ok (x y : R) : y <> 0 -> py_div x y = Ok (x / y).
Proof. intros H; unfold py_div; destruct (Req_dec_T y 0); [contradiction | reflexivity]. Qed.

Lemma np_div_Finite (x y : R) : y <> 0 -> np_div x y = Finite (x / y).
Proof. intros H; unfold np_div; destruct (Req_dec_T y 0); [contradiction | reflexivity]. Qed.

Lemma np_div_zero (x : R) : np_div x 0 = NonFinite.
Proof. unfold np_div; destruct (Req_dec_T 0 0); [reflexivity | contradiction]. Qed.

Lemma np_pow_Finite (x c : R) : 0 < x -> np_pow x c = Finite (Rpower x c).
Proof. intros H; unfold np_pow; destruct (Rlt_dec 0 x); [reflexivity | contradiction]. Qed.

Lemma np_pow_NonFinite (x c : R) : x <= 0 -> np_pow x c = NonFinite.
Proof. intros H; unfold np_pow; destruct (Rlt_dec 0 x); [lra | reflexivity]. Qed.

(** ** The structure-factor table *)

Lemma Rpower_neg_decreasing (c x y : R) :
  c < 0 -> 0 < x < y -> Rpower y c < Rpower x c.
Proof.
  intros Hc [Hx Hxy]. unfold Rpower. apply exp_increasing.
  assert (Hln : ln x < ln y) by (apply ln_increasing; assumption).
  nra.
Qed.

Lemma Rpower_pos (x c : R) : 0 < Rpower x c.
Proof. unfold Rpower; apply exp_pos. Qed.

(** Every row of the table has a positive factor and an exponent strictly
    between -1 and 0; any other name is refused. *)
Lemma structure_constants_spec (s : string) :
  match Weight.structure_constants s with
  | Ok (a, c) => In s Weight.categories /\ 0 < a /\ -1 < c < 0
  | Raise e => ~ In s Weight.categories /\ e = ValueError "Unknown aircraft type"
  end.
Proof.
  unfold Weight.structure_constants.
  repeat match goal with
  | |- context [String.eqb s ?lit] =>
      destruct (String.eqb_spec s lit) as [->|]
  end;
  try (simpl; split; [tauto | lra]).
  split; [|reflexivity].
  unfold Weight.categories; simpl; intuition congruence.
Qed.

Lemma structure_constants_known (s : string) :
  In s Weight.categories ->
  exists a c, Weight.structure_constants s = Ok (a, c) /\ 0 < a /\ -1 < c < 0.
Proof.
  intros Hin. generalize (structure_constants_spec s).
  destruct (Weight.structure_constants s) as [[a c]|e].
  - intros (_ & Ha & Hc). exists a, c. auto.
  - intros [Hn _]. contradiction.
Qed.

Lemma structure_constants_unknown (s : string) :
  ~ In s Weight.categories ->
  Weight.structure_constants s = Raise (ValueError "Unknown aircraft type").
Proof.
  intros Hn. generalize (structure_constants_spec s).
  destruct (Weight.structure_constants s) as [[a c]|e].
  - intros (Hin & _). contradiction.
  - intros [_ ->]. reflexivity.
Qed.

Lemma structure_factor_unknown (Type_ : string) (Wto : R) :
  ~ In (lower Type_) Weight.categories ->
  Weight.structure_factor Type_ Wto = Raise (ValueError "Unknown aircraft type").
Proof.
  intros Hn. unfold Weight.structure_factor.
  rewrite (structure_constants_unknown _ Hn). reflexivity.
Qed.

Lemma structure_factor_known (Type_ : string) (a c Wto : R) :
  Weight.structure_constants (lower Type_) = Ok (a, c) ->
  Weight.structure_factor Type_ Wto = Ok (np_mul (Finite a) (np_pow Wto c)).
Proof. intros H. unfold Weight.structure_factor. rewrite H. reflexivity. Qed.

Lemma structure_factor_pos (Type_ : string) (a c Wto : R) :
  Weight.structure_constants (lower Type_) = Ok (a, c) -> 0 < Wto ->
  Weight.structure_factor Type_ Wto = Ok (Finite (a * Rpower Wto c)).
Proof.
  intros H HW. rewrite (structure_factor_known _ _ _ _ H).
  rewrite np_pow_Finite by assumption. reflexivity.
Qed.

Lemma structure_factor_nonpos (Type_ : string) (Wto : R) :
  In (lower Type_) Weight.categories -> Wto <= 0 ->
  Weight.structure_factor Type_ Wto = Ok NonFinite.
Proof.
  intros Hin HW. destruct (structure_constants_known _ Hin) as (a & c & H & _).
  rewrite (structure_factor_known _ _ _ _ H).
  rewrite np_pow_NonFinite by assumption. reflexivity.
Qed.

(** A known type never raises, an unknown one always does: whether
    [structure_factor] raises does not depend on the weight. *)
Lemma structure_factor_Ok_known (Type_ : string) (Wto : R) (sf : npfloat) :
  Weight.structure_factor Type_ Wto = Ok sf -> In (lower Type_) Weight.categories.
Proof.
  unfold Weight.structure_factor. intros H.
  apply bind_Ok in H. destruct H as ([a c] & H & _).
  generalize (structure_constants_spec (lower Type_)). rewrite H. tauto.
Qed.

(** C8.  The structure factor is the power law [a * Wto ** c] with the literal
    constants of the table (transport-jet 1.02 and -0.06, combat-jet 2.34 and
    -0.13, and the eleven others); every exponent is strictly negative, so
    for each of the 13 types the factor at a heavier positive weight is
    strictly smaller. *)
Theorem structure_factor_power_law :
  map Weight.structure_constants Weight.categories
  = [ Ok (0.86, -0.05); Ok (0.91, -0.05); Ok (1.19, -0.09); Ok (1.15, -0.09);
      Ok (2.36, -0.18); Ok (1.51, -0.10); Ok (0.74, -0.03); Ok (0.96, -0.05);
      Ok (1.09, -0.05); Ok (1.59, -0.10); Ok (2.34, -0.13); Ok (1.02, -0.06);
      Ok (0.93, -0.07) ]
  /\ forall Type_ : string,
       In (lower Type_) Weight.categories ->
       exists a c : R,
         Weight.structure_constants (lower Type_) = Ok (a, c)
         /\ c < 0
         /\ (forall Wto : R, 0 < Wto ->
               Weight.structure_factor Type_ Wto = Ok (Finite (a * Rpower Wto c)))
         /\ (forall W1 W2 : R, 0 < W1 < W2 ->
               exists f1 f2 : R,
                 Weight.structure_factor Type_ W1 = Ok (Finite f1)
                 /\ Weight.structure_factor Type_ W2 = Ok (Finite f2)
                 /\ f2 < f1).
Proof.
  split; [reflexivity|].
  intros Type_ Hin.
  destruct (structure_constants_known _ Hin) as (a & c & H & Ha & Hc).
  exists a, c. repeat split; [assumption | lra | |].
  - intros Wto HW. apply structure_factor_pos; assumption.
  - intros W1 W2 HW. exists (a * Rpower W1 c), (a * Rpower W2 c).
    repeat split.
    + apply structure_factor_pos; [assumption | lra].
    + apply structure_factor_pos; [assumption | lra].
    + apply Rmult_lt_compat_l; [assumption|].
      apply Rpower_neg_decreasing; [lra | assumption].
Qed.

Lemma structure_factor_power_law_witness :
  exists f1 f2 : R,
    Weight.structure_factor "Transport-Jet" 1000 = Ok (Finite f1)
    /\ Weight.structure_factor "Transport-Jet" 2000 = Ok (Finite f2)
    /\ f2 < f1.
Proof.
  assert (Hin : In (lower "Transport-Jet") Weight.categories)
    by (simpl; tauto).
  destruct (proj2 structure_factor_power_law "Transport-Jet"%string Hin)
    as (a & c & _ & _ & _ & Hdec).
  apply (Hdec 1000 2000). lra.
Defined.

(** ** The root-finder as the callers see it *)

Lemma fsolve_first_evaluation (hybrd : Scipy.solver)
    (func : R -> exc npfloat) (x0 xtol : R) (e : exn) :
  func x0 = Raise e -> Scipy.fsolve hybrd func x0 xtol = Raise e.
Proof. intros H. unfold Scipy.fsolve. rewrite H. reflexivity. Qed.

Lemma fsolve_Ok (hybrd : Scipy.solver)
    (func : R -> exc npfloat) (x0 xtol x : R) :
  Scipy.fsolve hybrd func x0 xtol = Ok x ->
  (exists r0, func x0 = Ok r0) /\ hybrd func x0 xtol = Ok x.
Proof.
  unfold Scipy.fsolve. intros H. apply bind_Ok in H.
  destruct H as (r0 & H0 & H1). split; [exists r0|]; assumption.
Qed.

(** ** Unknown aircraft types *)

Section UnknownType.

Variables viscosity_zero sutherlands_constant : R.
Variable hybrd : Scipy.solver.
Variable Type_ : string.
Hypothesis unknown : ~ In (lower Type_) Weight.categories.

Lemma fpoids_unknown
    (Wto Range Wpayload TSFC T_loiter A Fuel_res Fuel_trap M_cruise H_cruise : R) :
  Weight.fpoids viscosity_zero sutherlands_constant Wto Range Type_ Wpayload
    TSFC T_loiter A Fuel_res Fuel_trap M_cruise H_cruise
  = Raise (ValueError "Unknown aircraft type").
Proof.
  unfold Weight.fpoids.
  rewrite (structure_factor_unknown _ Wto unknown). reflexivity.
Qed.

Lemma iterate_unknown
    (M_cruise H_cruise A TSFC T_loiter Fuel_res Fuel_trap Wpayload
       flight_range : R) :
  Weight.iterate_take_off_weight viscosity_zero sutherlands_constant hybrd
    Type_ M_cruise H_cruise A TSFC T_loiter Fuel_res Fuel_trap Wpayload
    flight_range
  = Raise (ValueError "Unknown aircraft type").
Proof.
  unfold Weight.iterate_take_off_weight.
  apply bind_Raise, fsolve_first_evaluation, fpoids_unknown.
Qed.

End UnknownType.

(** C4.  A type whose lower-cased name is none of the 13 names of the table
    makes [structure_factor] raise [ValueError('Unknown aircraft type')] at
    every weight, so no default fraction exists; the residual raises it at
    every weight too, and the solve ([iterate_take_off_weight], and
    [Weight(...)] with it) ends with that error at the first evaluation of
    the residual, whatever the numerical iteration would have done. *)
Theorem unknown_type_raises :
  forall (viscosity_zero sutherlands_constant : R) (hybrd : Scipy.solver)
         (Type_ : string)
         (M_cruise H_cruise A TSFC T_loiter Fuel_res Fuel_trap Wpayload
            flight_range : R),
    ~ In (lower Type_) Weight.categories ->
    (forall Wto : R,
        Weight.structure_factor Type_ Wto
        = Raise (ValueError "Unknown aircraft type"))
    /\ (forall Wto : R,
          Weight.fpoids viscosity_zero sutherlands_constant Wto flight_range
            Type_ Wpayload TSFC T_loiter A Fuel_res Fuel_trap M_cruise H_cruise
          = Raise (ValueError "Unknown aircraft type"))
    /\ Weight.iterate_take_off_weight viscosity_zero sutherlands_constant hybrd
         Type_ M_cruise H_cruise A TSFC T_loiter Fuel_res Fuel_trap Wpayload
         flight_range
       = Raise (ValueError "Unknown aircraft type")
    /\ Weight.init viscosity_zero sutherlands_constant hybrd
         Type_ M_cruise H_cruise A TSFC T_loiter Fuel_res Fuel_trap Wpayload
         flight_range
       = Raise (ValueError "Unknown aircraft type").
Proof.
  intros vz sc hybrd Type_ M H A TSFC Tl Fr Ft Wp Rg Hn.
  split; [|split; [|split]].
  - intros Wto. apply structure_factor_unknown; assumption.
  - intros Wto. apply fpoids_unknown; assumption.
  - apply iterate_unknown; assumption.
  - unfold Weight.init. apply bind_Raise, iterate_unknown; assumption.
Qed.

Lemma biplane_unknown_not_listed :
  ~ In (lower "biplane-unknown") Weight.categories.
Proof. simpl. intuition discriminate. Defined.

Lemma unknown_type_raises_witness :
  Weight.init 1.789e-5 110.4 Scipy.hybrd_no_progress "biplane-unknown"
    0.82 40000 10 0.45 45 0.05 0.01 30750 3500
  = Raise (ValueError "Unknown aircraft type").
Proof.
  apply (unknown_type_raises 1.789e-5 110.4 Scipy.hybrd_no_progress
           "biplane-unknown" 0.82 40000 10 0.45 45 0.05 0.01 30750 3500
           biplane_unknown_not_listed).
Defined.

(** Matching is case-insensitive: the lower-cased name is what is looked up. *)
Lemma structure_factor_case_insensitive (T1 T2 : string) (Wto : R) :
  lower T1 = lower T2 ->
  Weight.structure_factor T1 Wto = Weight.structure_factor T2 Wto.
Proof. intros H. unfold Weight.structure_factor. rewrite H. reflexivity. Qed.

(** ** The scripts *)

(** C10.  Both [plane_mass.py] scripts call [itertow] at load time with the
    type 'jet-transport'.  The table has 'transport-jet' and no
    'jet-transport', so the first evaluation of the residual raises
    [ValueError('Unknown aircraft type')]: the load ends with that error and
    nothing has been printed. *)
Theorem plane_mass_load_raises :
  forall (v : PlaneMass.variant) (hybrd : Scipy.solver),
    PlaneMass.Type_ = "jet-transport"%string
    /\ In "transport-jet"%string Weight.categories
    /\ ~ In (lower PlaneMass.Type_) Weight.categories
    /\ PlaneMass.load v hybrd
       = (Raise (ValueError "Unknown aircraft type"), []).
Proof.
  intros v hybrd.
  assert (Hn : ~ In (lower PlaneMass.Type_) Weight.categories)
    by (simpl; intuition discriminate).
  split; [reflexivity|].
  split; [simpl; tauto|].
  split; [assumption|].
  unfold PlaneMass.load, PlaneMass.itertow.
  erewrite fsolve_first_evaluation; [reflexivity|].
  unfold PlaneMass.fpoids, PlaneMass.structure_factor.
  rewrite structure_factor_unknown by assumption. reflexivity.
Qed.

(** ** The atmosphere *)

(** The exponent [-g0 / (L * R)] of the troposphere laws. *)
Lemma troposphere_exponent :
  1 < - Constants.gravity_zero
      / (Constants.temperature_variation_altitudem * Constants.R_air).
Proof.
  unfold Constants.gravity_zero, Constants.temperature_variation_altitudem,
    Constants.R_air. lra.
Qed.

Lemma compute_temperature_troposphere (h : R) :
  h < Constants.altitude_junction ->
  Atmosphere.compute_temperature h
  = Constants.temperature_zero + Constants.temperature_variation_altitudem * h.
Proof.
  intros H. unfold Atmosphere.compute_temperature.
  destruct (Rlt_dec h Constants.altitude_junction); [reflexivity | contradiction].
Qed.

Lemma compute_temperature_stratosphere (h : R) :
  Constants.altitude_junction <= h ->
  Atmosphere.compute_temperature h = Constants.temperature_junction.
Proof.
  intros H. unfold Atmosphere.compute_temperature.
  destruct (Rlt_dec h Constants.altitude_junction); [lra | reflexivity].
Qed.

(** The temperature never falls below its tropopause value, so every base of
    [math.pow] and every argument of [math.sqrt] is positive. *)
Lemma compute_temperature_bound (h : R) :
  Constants.temperature_junction <= Atmosphere.compute_temperature h.
Proof.
  unfold Atmosphere.compute_temperature.
  destruct (Rlt_dec h Constants.altitude_junction) as [H|H]; [|lra].
  revert H. unfold Constants.altitude_junction, Constants.temperature_junction,
    Constants.temperature_zero, Constants.temperature_variation_altitudem. lra.
Qed.

Lemma temperature_ratio_pos (h : R) :
  0 < Atmosphere.compute_temperature h / Constants.temperature_zero.
Proof.
  generalize (compute_temperature_bound h).
  unfold Constants.temperature_junction, Constants.temperature_zero. lra.
Qed.

Lemma sound_speed_pos (h : R) : 0 < Atmosphere.sound_speed_at h.
Proof.
  unfold Atmosphere.sound_speed_at, Atmosphere.compute_sound_speed.
  apply sqrt_lt_R0. generalize (compute_temperature_bound h).
  unfold Constants.temperature_junction, Constants.gamma_air, Constants.R_air.
  nra.
Qed.

Lemma pressure_at_troposphere (h : R) :
  h < Constants.altitude_junction ->
  Atmosphere.pressure_at h
  = Constants.pressure_zero
    * Rpower ((Constants.temperature_zero
               + Constants.temperature_variation_altitudem * h)
              / Constants.temperature_zero)
        (- Constants.gravity_zero
         / (Constants.temperature_variation_altitudem * Constants.R_air)).
Proof.
  intros H. unfold Atmosphere.pressure_at, Atmosphere.compute_pressure, py_pow.
  rewrite compute_temperature_troposphere by assumption.
  destruct (Rlt_dec h Constants.altitude_junction); [reflexivity | contradiction].
Qed.

Lemma pressure_at_stratosphere (h : R) :
  Constants.altitude_junction <= h ->
  Atmosphere.pressure_at h
  = Constants.pressure_zero
    * Rpower (Constants.temperature_junction / Constants.temperature_zero)
        (- Constants.gravity_zero
         / (Constants.temperature_variation_altitudem * Constants.R_air))
    * exp (- Constants.gravity_zero
           / (Constants.R_air * Constants.temperature_junction)
           * (h - Constants.altitude_junction)).
Proof.
  intros H. unfold Atmosphere.pressure_at, Atmosphere.compute_pressure, py_pow.
  rewrite compute_temperature_stratosphere by assumption.
  destruct (Rlt_dec h Constants.altitude_junction); [lra | reflexivity].
Qed.

Lemma density_at_troposphere (h : R) :
  h < Constants.altitude_junction ->
  Atmosphere.density_at h
  = Constants.density_zero
    * Rpower ((Constants.temperature_zero
               + Constants.temperature_variation_altitudem * h)
              / Constants.temperature_zero)
        (- Constants.gravity_zero
         / (Constants.temperature_variation_altitudem * Constants.R_air) - 1).
Proof.
  intros H. unfold Atmosphere.density_at, Atmosphere.compute_density, py_pow.
  rewrite compute_temperature_troposphere by assumption.
  destruct (Rlt_dec h Constants.altitude_junction); [reflexivity | contradiction].
Qed.

Lemma density_at_stratosphere (h : R) :
  Constants.altitude_junction <= h ->
  Atmosphere.density_at h
  = Constants.density_zero
    * Rpower (Constants.temperature_junction / Constants.temperature_zero)
        (- Constants.gravity_zero
         / (Constants.temperature_variation_altitudem * Constants.R_air) - 1)
    * exp (- Constants.gravity_zero
           / (Constants.R_air * Constants.temperature_junction)
           * (h - Constants.altitude_junction)).
Proof.
  intros H. unfold Atmosphere.density_at, Atmosphere.compute_density, py_pow.
  rewrite compute_temperature_stratosphere by assumption.
  destruct (Rlt_dec h Constants.altitude_junction); [lra | reflexivity].
Qed.

Lemma continuity_pt_ln (x : R) : 0 < x -> continuity_pt ln x.
Proof.
  intros H. apply derivable_continuous_pt. exists (/ x).
  apply derivable_pt_lim_ln. assumption.
Qed.

(** Two functions that are continuous at [c] and agree there glue into a
    function that is continuous at [c]. *)
Lemma continuity_pt_glue (f g F : R -> R) (c : R) :
  continuity_pt f c -> continuity_pt g c -> f c = g c ->
  (forall x, x < c -> F x = f x) -> (forall x, c <= x -> F x = g x) ->
  continuity_pt F c.
Proof.
  intros Hf Hg Heq Hlo Hhi eps Heps.
  destruct (Hf eps Heps) as (d1 & Hd1 & H1).
  destruct (Hg eps Heps) as (d2 & Hd2 & H2).
  exists (Rmin d1 d2). split; [apply Rmin_pos; assumption|].
  intros x [Hx Hdist]. simpl in *.
  rewrite (Hhi c) by lra.
  destruct (Rlt_dec x c) as [Hlt|Hge].
  - rewrite (Hlo x Hlt), <- Heq. apply H1. split; [assumption|].
    eapply Rlt_le_trans; [exact Hdist | apply Rmin_l].
  - rewrite (Hhi x) by lra. apply H2. split; [assumption|].
    eapply Rlt_le_trans; [exact Hdist | apply Rmin_r].
Qed.

(** Both state laws have the same shape: a power of the temperature ratio
    below the junction, an exponential decay from the junction value above
    it.  Such a law decreases strictly with the altitude, whatever the
    positive sea-level value [q0] and the positive exponent [n]. *)
Section TwoLayerLaw.

Variables (q0 n : R) (f : R -> R).
Hypothesis q0_pos : 0 < q0.
Hypothesis n_pos : 0 < n.
Hypothesis f_troposphere :
  forall h, h < Constants.altitude_junction ->
    f h = q0 * Rpower ((Constants.temperature_zero
                        + Constants.temperature_variation_altitudem * h)
                       / Constants.temperature_zero) n.
Hypothesis f_stratosphere :
  forall h, Constants.altitude_junction <= h ->
    f h = q0 * Rpower (Constants.temperature_junction
                       / Constants.temperature_zero) n
          * exp (- Constants.gravity_zero
                 / (Constants.R_air * Constants.temperature_junction)
                 * (h - Constants.altitude_junction)).

Lemma decay_rate_neg :
  - Constants.gravity_zero / (Constants.R_air * Constants.temperature_junction) < 0.
Proof.
  unfold Constants.gravity_zero, Constants.R_air, Constants.temperature_junction.
  lra.
Qed.

Lemma two_layer_troposphere_above_junction (h : R) :
  h < Constants.altitude_junction ->
  q0 * Rpower (Constants.temperature_junction / Constants.temperature_zero) n
  < f h.
Proof.
  intros H. rewrite f_troposphere by assumption.
  apply Rmult_lt_compat_l; [assumption|].
  apply Rlt_Rpower_l; [assumption|].
  revert H.
  unfold Constants.altitude_junction, Constants.temperature_junction,
    Constants.temperature_zero, Constants.temperature_variation_altitudem.
  intros H. split; lra.
Qed.

Lemma two_layer_decreasing (h1 h2 : R) : h1 < h2 -> f h2 < f h1.
Proof.
  intros Hlt.
  destruct (Rlt_dec h1 Constants.altitude_junction) as [L1|L1];
  destruct (Rlt_dec h2 Constants.altitude_junction) as [L2|L2].
  - rewrite !f_troposphere by assumption.
    apply Rmult_lt_compat_l; [assumption|].
    apply Rlt_Rpower_l; [assumption|].
    revert L1 L2 Hlt.
    unfold Constants.altitude_junction, Constants.temperature_zero,
      Constants.temperature_variation_altitudem.
    intros L1 L2 Hlt. split; lra.
  - apply Rle_lt_trans
      with (q0 * Rpower (Constants.temperature_junction
                         / Constants.temperature_zero) n).
    + rewrite f_stratosphere by lra.
      rewrite <- (Rmult_1_r (q0 * Rpower _ n)) at 2.
      apply Rmult_le_compat_l.
      * apply Rlt_le, Rmult_lt_0_compat; [assumption | apply Rpower_pos].
      * rewrite <- exp_0.
        assert (Hb := decay_rate_neg).
        destruct (Req_dec_T h2 Constants.altitude_junction) as [->|Hne].
        -- right. f_equal. ring.
        -- left. apply exp_increasing. nra.
    + apply two_layer_troposphere_above_junction; assumption.
  - lra.
  - rewrite !f_stratosphere by lra.
    apply Rmult_lt_compat_l.
    + apply Rmult_lt_0_compat; [assumption | apply Rpower_pos].
    + apply exp_increasing. assert (Hb := decay_rate_neg). nra.
Qed.

(** At the junction the troposphere law takes the junction value, and the
    decay factor of the stratosphere law is 1. *)
Lemma two_layer_junction :
  q0 * Rpower ((Constants.temperature_zero
                + Constants.temperature_variation_altitudem
                  * Constants.altitude_junction)
               / Constants.temperature_zero) n
  = f Constants.altitude_junction.
Proof.
  rewrite f_stratosphere by lra.
  replace (Constants.altitude_junction - Constants.altitude_junction) with 0
    by ring.
  rewrite Rmult_0_r, exp_0, Rmult_1_r. do 2 f_equal.
  unfold Constants.temperature_zero, Constants.temperature_variation_altitudem,
    Constants.altitude_junction, Constants.temperature_junction. lra.
Qed.

Lemma two_layer_continuous : continuity_pt f Constants.altitude_junction.
Proof.
  apply continuity_pt_glue
    with (f := fun h => q0 * Rpower ((Constants.temperature_zero
                          + Constants.temperature_variation_altitudem * h)
                         / Constants.temperature_zero) n)
         (g := fun h => q0 * Rpower (Constants.temperature_junction
                                     / Constants.temperature_zero) n
                        * exp (- Constants.gravity_zero
                               / (Constants.R_air * Constants.temperature_junction)
                               * (h - Constants.altitude_junction))).
  - unfold Rpower. reg. apply continuity_pt_ln.
    unfold Constants.temperature_zero, Constants.temperature_variation_altitudem,
      Constants.altitude_junction. lra.
  - reg.
  - simpl. rewrite two_layer_junction. apply f_stratosphere. lra.
  - exact f_troposphere.
  - exact f_stratosphere.
Qed.

End TwoLayerLaw.

(** C7.  Pressure and density decrease strictly with the altitude: for
    [0 <= h1 < h2] both are strictly smaller at [h2] than at [h1], as
    functions of the altitude and as attributes of the [Atmosphere] objects
    built at [h1] and [h2]. *)
Theorem pressure_density_decreasing :
  forall h1 h2 : R, 0 <= h1 < h2 ->
    Atmosphere.pressure_at h2 < Atmosphere.pressure_at h1
    /\ Atmosphere.density_at h2 < Atmosphere.density_at h1
    /\ forall (viscosity_zero sutherlands_constant : R) (a1 a2 : Atmosphere.t),
         Atmosphere.init viscosity_zero sutherlands_constant h1 = Ok a1 ->
         Atmosphere.init viscosity_zero sutherlands_constant h2 = Ok a2 ->
         Atmosphere.pressure a2 < Atmosphere.pressure a1
         /\ Atmosphere.density a2 < Atmosphere.density a1.
Proof.
  intros h1 h2 [_ Hlt].
  assert (Hk := troposphere_exponent).
  assert (HP : Atmosphere.pressure_at h2 < Atmosphere.pressure_at h1).
  { apply (two_layer_decreasing Constants.pressure_zero
             (- Constants.gravity_zero
              / (Constants.temperature_variation_altitudem * Constants.R_air))).
    - unfold Constants.pressure_zero; lra.
    - lra.
    - apply pressure_at_troposphere.
    - apply pressure_at_stratosphere.
    - assumption. }
  assert (HD : Atmosphere.density_at h2 < Atmosphere.density_at h1).
  { apply (two_layer_decreasing Constants.density_zero
             (- Constants.gravity_zero
              / (Constants.temperature_variation_altitudem * Constants.R_air)
              - 1)).
    - unfold Constants.density_zero; lra.
    - lra.
    - apply density_at_troposphere.
    - apply density_at_stratosphere.
    - assumption. }
  split; [assumption|]. split; [assumption|].
  intros vz sc a1 a2 H1 H2.
  unfold Atmosphere.init in H1, H2.
  apply bind_Ok in H1. destruct H1 as (v1 & _ & H1).
  apply bind_Ok in H1. destruct H1 as (g1 & _ & H1).
  apply bind_Ok in H2. destruct H2 as (v2 & _ & H2).
  apply bind_Ok in H2. destruct H2 as (g2 & _ & H2).
  injection H1 as <-. injection H2 as <-. simpl.
  split; assumption.
Qed.

Lemma pressure_density_decreasing_witness :
  Atmosphere.pressure_at 12000 < Atmosphere.pressure_at 0
  /\ Atmosphere.density_at 12000 < Atmosphere.density_at 0.
Proof.
  assert (H : 0 <= 0 < 12000) by lra.
  destruct (pressure_density_decreasing 0 12000 H) as (HP & HD & _).
  split; assumption.
Defined.

(** C6.  The model is continuous at the tropopause junction (11000 m):
    temperature, pressure and density are continuous functions of the
    altitude there.  The troposphere formulas taken at the junction give the
    stratosphere values: [288.16 + (-6.5e-3) * 11000 = 216.66], and the
    exponential factor of the stratosphere branch is 1 at the junction. *)
Theorem atmosphere_continuous_at_junction :
  continuity_pt Atmosphere.temperature_at Constants.altitude_junction
  /\ continuity_pt Atmosphere.pressure_at Constants.altitude_junction
  /\ continuity_pt Atmosphere.density_at Constants.altitude_junction
  /\ Constants.temperature_zero
     + Constants.temperature_variation_altitudem * Constants.altitude_junction
     = Atmosphere.temperature_at Constants.altitude_junction
  /\ Atmosphere.temperature_at Constants.altitude_junction = 216.66
  /\ exp (- Constants.gravity_zero
          / (Constants.R_air
             * Atmosphere.temperature_at Constants.altitude_junction)
          * (Constants.altitude_junction - Constants.altitude_junction)) = 1
  /\ Constants.pressure_zero
     * Rpower ((Constants.temperature_zero
                + Constants.temperature_variation_altitudem
                  * Constants.altitude_junction)
               / Constants.temperature_zero)
         (- Constants.gravity_zero
          / (Constants.temperature_variation_altitudem * Constants.R_air))
     = Atmosphere.pressure_at Constants.altitude_junction
  /\ Constants.density_zero
     * Rpower ((Constants.temperature_zero
                + Constants.temperature_variation_altitudem
                  * Constants.altitude_junction)
               / Constants.temperature_zero)
         (- Constants.gravity_zero
          / (Constants.temperature_variation_altitudem * Constants.R_air) - 1)
     = Atmosphere.density_at Constants.altitude_junction.
Proof.
  assert (HT : Atmosphere.temperature_at Constants.altitude_junction
               = Constants.temperature_junction).
  { apply compute_temperature_stratosphere. lra. }
  repeat apply conj.
  - apply continuity_pt_glue
      with (f := fun h => Constants.temperature_zero
                          + Constants.temperature_variation_altitudem * h)
           (g := fun _ => Constants.temperature_junction).
    + reg.
    + reg.
    + unfold Constants.temperature_zero, Constants.altitude_junction,
        Constants.temperature_variation_altitudem,
        Constants.temperature_junction. lra.
    + apply compute_temperature_troposphere.
    + apply compute_temperature_stratosphere.
  - eapply two_layer_continuous.
    + apply pressure_at_troposphere.
    + apply pressure_at_stratosphere.
  - eapply two_layer_continuous.
    + apply density_at_troposphere.
    + apply density_at_stratosphere.
  - rewrite HT.
    unfold Constants.temperature_zero, Constants.altitude_junction,
      Constants.temperature_variation_altitudem,
      Constants.temperature_junction. lra.
  - rewrite HT. reflexivity.
  - replace (Constants.altitude_junction - Constants.altitude_junction) with 0
      by ring.
    rewrite Rmult_0_r. apply exp_0.
  - eapply two_layer_junction. apply pressure_at_stratosphere.
  - eapply two_layer_junction. apply density_at_stratosphere.
Qed.

(** ** Cruise altitude at or above the junction *)

Section Stratosphere.

Variables viscosity_zero sutherlands_constant : R.
Variable hybrd : Scipy.solver.

(** At or above the junction the cruise speed is the Mach number times the
    constant speed of sound of the stratosphere, unless Sutherland's law
    divides by zero, which does not depend on the altitude either. *)
Lemma vitesse_stratosphere (mach H : R) :
  Constants.altitude_junction <= H ->
  Weight.vitesse viscosity_zero sutherlands_constant mach H
  = (_ <- Atmosphere.compute_air_viscosity viscosity_zero sutherlands_constant
            Constants.temperature_junction ;;
     ret (mach * sqrt (Constants.gamma_air * Constants.R_air
                       * Constants.temperature_junction))).
Proof.
  intros HH. unfold Weight.vitesse, Atmosphere.init.
  rewrite compute_temperature_stratosphere by assumption.
  destruct (Atmosphere.compute_air_viscosity viscosity_zero
              sutherlands_constant Constants.temperature_junction) as [v|e];
    simpl; [|reflexivity].
  unfold Atmosphere.compute_gravity. rewrite py_div_Ok.
  - reflexivity.
  - revert HH. unfold Constants.altitude_junction, Constants.earth_radius. lra.
Qed.

Lemma fcruise_stratosphere (M_cruise H1 H2 A Range TSFC : R) :
  Constants.altitude_junction <= H1 -> Constants.altitude_junction <= H2 ->
  Weight.fcruise viscosity_zero sutherlands_constant M_cruise H1 A Range TSFC
  = Weight.fcruise viscosity_zero sutherlands_constant M_cruise H2 A Range TSFC.
Proof.
  intros HH1 HH2. unfold Weight.fcruise.
  rewrite (vitesse_stratosphere _ H1 HH1), (vitesse_stratosphere _ H2 HH2).
  reflexivity.
Qed.

Lemma fpoids_stratosphere
    (Wto Range : R) (Type_ : string)
    (Wpayload TSFC T_loiter A Fuel_res Fuel_trap M_cruise H1 H2 : R) :
  Constants.altitude_junction <= H1 -> Constants.altitude_junction <= H2 ->
  Weight.fpoids viscosity_zero sutherlands_constant Wto Range Type_ Wpayload
    TSFC T_loiter A Fuel_res Fuel_trap M_cruise H1
  = Weight.fpoids viscosity_zero sutherlands_constant Wto Range Type_ Wpayload
      TSFC T_loiter A Fuel_res Fuel_trap M_cruise H2.
Proof.
  intros HH1 HH2. unfold Weight.fpoids.
  rewrite (fcruise_stratosphere M_cruise H1 H2) by assumption. reflexivity.
Qed.

Lemma iterate_stratosphere (Type_ : string)
    (M_cruise H1 H2 A TSFC T_loiter Fuel_res Fuel_trap Wpayload flight_range : R) :
  Constants.altitude_junction <= H1 -> Constants.altitude_junction <= H2 ->
  Weight.iterate_take_off_weight viscosity_zero sutherlands_constant hybrd
    Type_ M_cruise H1 A TSFC T_loiter Fuel_res Fuel_trap Wpayload flight_range
  = Weight.iterate_take_off_weight viscosity_zero sutherlands_constant hybrd
      Type_ M_cruise H2 A TSFC T_loiter Fuel_res Fuel_trap Wpayload flight_range.
Proof.
  intros HH1 HH2. unfold Weight.iterate_take_off_weight.
  replace (fun Wto : R =>
             Weight.fpoids viscosity_zero sutherlands_constant Wto flight_range
               Type_ Wpayload TSFC T_loiter A Fuel_res Fuel_trap M_cruise H1)
    with (fun Wto : R =>
            Weight.fpoids viscosity_zero sutherlands_constant Wto flight_range
              Type_ Wpayload TSFC T_loiter A Fuel_res Fuel_trap M_cruise H2).
  - reflexivity.
  - apply functional_extensionality. intros Wto.
    apply fpoids_stratosphere; assumption.
Qed.

End Stratosphere.

(** C9.  For two cruise altitudes at or above 11000 (in the unit of the
    [Atmosphere] constructor, which receives [H_cruise] unconverted, 40000
    included) the cruise speed, the cruise fraction, the residual and the
    whole result of the solve are the same: the temperature is the junction
    temperature and the speed of sound is [sqrt (1.4 * 286.9 * 216.66)]. *)
Theorem solve_independent_of_altitude_in_stratosphere :
  forall (viscosity_zero sutherlands_constant : R) (hybrd : Scipy.solver)
         (Type_ : string)
         (M_cruise H1 H2 A TSFC T_loiter Fuel_res Fuel_trap Wpayload
            flight_range : R),
    11000 <= H1 -> 11000 <= H2 ->
    (forall a : Atmosphere.t,
        Atmosphere.init viscosity_zero sutherlands_constant H1 = Ok a ->
        Atmosphere.temperature_K a = 216.66
        /\ Atmosphere.sound_speed a = sqrt (1.4 * 286.9 * 216.66))
    /\ Weight.vitesse viscosity_zero sutherlands_constant M_cruise H1
       = Weight.vitesse viscosity_zero sutherlands_constant M_cruise H2
    /\ Weight.fcruise viscosity_zero sutherlands_constant M_cruise H1 A
         flight_range TSFC
       = Weight.fcruise viscosity_zero sutherlands_constant M_cruise H2 A
           flight_range TSFC
    /\ (forall Wto : R,
          Weight.fpoids viscosity_zero sutherlands_constant Wto flight_range
            Type_ Wpayload TSFC T_loiter A Fuel_res Fuel_trap M_cruise H1
          = Weight.fpoids viscosity_zero sutherlands_constant Wto flight_range
              Type_ Wpayload TSFC T_loiter A Fuel_res Fuel_trap M_cruise H2)
    /\ Weight.iterate_take_off_weight viscosity_zero sutherlands_constant hybrd
         Type_ M_cruise H1 A TSFC T_loiter Fuel_res Fuel_trap Wpayload
         flight_range
       = Weight.iterate_take_off_weight viscosity_zero sutherlands_constant
           hybrd Type_ M_cruise H2 A TSFC T_loiter Fuel_res Fuel_trap Wpayload
           flight_range
    /\ Weight.init viscosity_zero sutherlands_constant hybrd
         Type_ M_cruise H1 A TSFC T_loiter Fuel_res Fuel_trap Wpayload
         flight_range
       = Weight.init viscosity_zero sutherlands_constant hybrd
           Type_ M_cruise H2 A TSFC T_loiter Fuel_res Fuel_trap Wpayload
           flight_range.
Proof.
  intros vz sc hybrd Type_ M H1 H2 A TSFC Tl Fr Ft Wp Rg HH1 HH2.
  assert (J1 : Constants.altitude_junction <= H1)
    by (unfold Constants.altitude_junction; lra).
  assert (J2 : Constants.altitude_junction <= H2)
    by (unfold Constants.altitude_junction; lra).
  repeat apply conj.
  - intros a Ha. unfold Atmosphere.init in Ha.
    apply bind_Ok in Ha. destruct Ha as (v & _ & Ha).
    apply bind_Ok in Ha. destruct Ha as (g & _ & Ha).
    injection Ha as <-. simpl.
    rewrite compute_temperature_stratosphere by assumption.
    split; reflexivity.
  - rewrite !vitesse_stratosphere by assumption. reflexivity.
  - apply fcruise_stratosphere; assumption.
  - intros Wto. apply fpoids_stratosphere; assumption.
  - apply iterate_stratosphere; assumption.
  - unfold Weight.init. rewrite (iterate_stratosphere vz sc hybrd Type_ M H1 H2)
      by assumption. reflexivity.
Qed.

Lemma solve_independent_of_altitude_in_stratosphere_witness :
  Weight.init 1.789e-5 110.4 Scipy.hybrd_no_progress "transport-jet"
    0.82 11000 10 0.45 45 0.05 0.01 30750 3500
  = Weight.init 1.789e-5 110.4 Scipy.hybrd_no_progress "transport-jet"
      0.82 40000 10 0.45 45 0.05 0.01 30750 3500.
Proof.
  assert (H1 : 11000 <= 11000) by lra.
  assert (H2 : 11000 <= 40000) by lra.
  apply (solve_independent_of_altitude_in_stratosphere 1.789e-5 110.4
           Scipy.hybrd_no_progress "transport-jet" 0.82 11000 40000 10 0.45 45
           0.05 0.01 30750 3500 H1 H2).
Defined.

(** ** The phase fractions on their domain *)

Lemma finesse_pos (Mach A : R) : 0 < A -> 0 < Weight.finesse Mach A.
Proof.
  intros HA. unfold Weight.finesse, py_pow.
  destruct (Rlt_dec Mach 1); [lra|].
  apply Rmult_lt_0_compat; [lra | apply Rpower_pos].
Qed.

Lemma floiter_Ok (M_cruise T_loiter TSFC A : R) :
  0 < A ->
  Weight.floiter M_cruise T_loiter TSFC A
  = Ok (1 / exp (T_loiter * TSFC / (Weight.finesse M_cruise A * 60))).
Proof.
  intros HA. unfold Weight.floiter.
  assert (Hf := finesse_pos M_cruise A HA).
  rewrite py_div_Ok by lra. reflexivity.
Qed.

Section Domain.

Variables viscosity_zero sutherlands_constant : R.
Hypothesis sutherland_pos : 0 < sutherlands_constant.

Lemma compute_air_viscosity_Ok (h : R) :
  exists mu,
    Atmosphere.compute_air_viscosity viscosity_zero sutherlands_constant
      (Atmosphere.compute_temperature h) = Ok mu.
Proof.
  unfold Atmosphere.compute_air_viscosity. eexists. apply py_div_Ok.
  generalize (compute_temperature_bound h).
  unfold Constants.temperature_junction. lra.
Qed.

Lemma vitesse_Ok (mach H : R) :
  0 <= H ->
  Weight.vitesse viscosity_zero sutherlands_constant mach H
  = Ok (mach * Atmosphere.sound_speed_at H).
Proof.
  intros HH. unfold Weight.vitesse, Atmosphere.init.
  destruct (compute_air_viscosity_Ok H) as (mu & ->). simpl.
  unfold Atmosphere.compute_gravity. rewrite py_div_Ok.
  - reflexivity.
  - unfold Constants.earth_radius. lra.
Qed.

Lemma fcruise_Ok (M_cruise H_cruise A Range TSFC : R) :
  0 <= H_cruise -> 0 < M_cruise -> 0 < A ->
  Weight.fcruise viscosity_zero sutherlands_constant M_cruise H_cruise A
    Range TSFC
  = Ok (1 / exp (Range * TSFC * 6080
                 / (M_cruise * Atmosphere.sound_speed_at H_cruise
                    * (0.866 * Weight.finesse M_cruise A) * 3600))).
Proof.
  intros HH HM HA. unfold Weight.fcruise.
  rewrite vitesse_Ok by assumption. simpl.
  assert (Hf := finesse_pos M_cruise A HA).
  assert (Hs := sound_speed_pos H_cruise).
  rewrite py_div_Ok; [reflexivity|].
  assert (0 < M_cruise * Atmosphere.sound_speed_at H_cruise)
    by (apply Rmult_lt_0_compat; assumption).
  assert (0 < M_cruise * Atmosphere.sound_speed_at H_cruise
              * (0.866 * Weight.finesse M_cruise A))
    by (apply Rmult_lt_0_compat; lra).
  lra.
Qed.

(** The residual of a known type on the domain: the function of the solve
    contract at a positive weight, a non-finite value at a weight that is
    zero or negative. *)
Lemma fpoids_pos (Wto Range : R) (Type_ : string) (a c : R)
    (Wpayload TSFC T_loiter A Fuel_res Fuel_trap M_cruise H_cruise : R) :
  0 <= H_cruise -> 0 < M_cruise -> 0 < A ->
  Weight.structure_constants (lower Type_) = Ok (a, c) ->
  0 < Wto ->
  Weight.fpoids viscosity_zero sutherlands_constant Wto Range Type_ Wpayload
    TSFC T_loiter A Fuel_res Fuel_trap M_cruise H_cruise
  = Ok (Finite
          (1 - (Wpayload / Wto + a * Rpower Wto c
                + (1 - 0.975 * Weight.fclimb M_cruise)
                  * (1 + 1 / exp (Range * TSFC * 6080
                                  / (M_cruise * Atmosphere.sound_speed_at H_cruise
                                     * (0.866 * Weight.finesse M_cruise A)
                                     * 3600))
                         * (1 / exp (T_loiter * TSFC
                                     / (Weight.finesse M_cruise A * 60))))))).
Proof.
  intros HH HM HA Hac HW. unfold Weight.fpoids.
  rewrite (structure_factor_pos _ _ _ _ Hac HW).
  rewrite fcruise_Ok, floiter_Ok by assumption.
  rewrite np_div_Finite by lra. reflexivity.
Qed.

Lemma fpoids_nonpos (Wto Range : R) (Type_ : string)
    (Wpayload TSFC T_loiter A Fuel_res Fuel_trap M_cruise H_cruise : R) :
  0 <= H_cruise -> 0 < M_cruise -> 0 < A ->
  In (lower Type_) Weight.categories ->
  Wto <= 0 ->
  Weight.fpoids viscosity_zero sutherlands_constant Wto Range Type_ Wpayload
    TSFC T_loiter A Fuel_res Fuel_trap M_cruise H_cruise
  = Ok NonFinite.
Proof.
  intros HH HM HA Hin HW. unfold Weight.fpoids.
  rewrite (structure_factor_nonpos _ _ Hin HW).
  rewrite fcruise_Ok, floiter_Ok by assumption.
  simpl. destruct (np_div Wpayload Wto); reflexivity.
Qed.

Lemma fpoids_Ok (Wto Range : R) (Type_ : string)
    (Wpayload TSFC T_loiter A Fuel_res Fuel_trap M_cruise H_cruise : R) :
  0 <= H_cruise -> 0 < M_cruise -> 0 < A ->
  In (lower Type_) Weight.categories ->
  exists r,
    Weight.fpoids viscosity_zero sutherlands_constant Wto Range Type_ Wpayload
      TSFC T_loiter A Fuel_res Fuel_trap M_cruise H_cruise = Ok r.
Proof.
  intros HH HM HA Hin.
  destruct (Rlt_dec 0 Wto) as [HW|HW].
  - destruct (structure_constants_known _ Hin) as (a & c & Hac & _).
    eexists. apply (fpoids_pos Wto Range Type_ a c); assumption.
  - eexists. apply fpoids_nonpos; try assumption. lra.
Qed.

End Domain.

(** ** The solve *)

Section SolveShape.

Variables viscosity_zero sutherlands_constant : R.
Variable hybrd : Scipy.solver.
Variable Type_ : string.
Variables M_cruise H_cruise A TSFC T_loiter Fuel_res Fuel_trap Wpayload
  flight_range : R.

Let residual : R -> exc npfloat :=
  fun Wto =>
    Weight.fpoids viscosity_zero sutherlands_constant Wto flight_range Type_
      Wpayload TSFC T_loiter A Fuel_res Fuel_trap M_cruise H_cruise.

Let iterate : exc (R * npfloat * npfloat) :=
  Weight.iterate_take_off_weight viscosity_zero sutherlands_constant hybrd
    Type_ M_cruise H_cruise A TSFC T_loiter Fuel_res Fuel_trap Wpayload
    flight_range.

Let init : exc Weight.t :=
  Weight.init viscosity_zero sutherlands_constant hybrd
    Type_ M_cruise H_cruise A TSFC T_loiter Fuel_res Fuel_trap Wpayload
    flight_range.

Lemma fpoids_Ok_known (Wto : R) (r : npfloat) :
  residual Wto = Ok r -> In (lower Type_) Weight.categories.
Proof.
  unfold residual, Weight.fpoids. intros H.
  apply bind_Ok in H. destruct H as (sf & Hsf & _).
  exact (structure_factor_Ok_known _ _ _ Hsf).
Qed.

(** Once the root-finder has returned, nothing but the arithmetic of the
    breakdown remains. *)
Lemma iterate_of_fsolve (x : R) :
  Scipy.fsolve hybrd residual Wpayload 1e-6 = Ok x ->
  exists a c,
    Weight.structure_constants (lower Type_) = Ok (a, c)
    /\ iterate
       = Ok (x,
             np_mul (np_mul (Finite a) (np_pow x c)) (Finite x),
             np_sub (np_sub (Finite x)
                       (np_mul (np_mul (Finite a) (np_pow x c)) (Finite x)))
               (Finite Wpayload))
    /\ init
       = Ok (Weight.mk x
               (np_mul (np_mul (Finite a) (np_pow x c)) (Finite x))
               (np_sub (np_sub (Finite x)
                          (np_mul (np_mul (Finite a) (np_pow x c)) (Finite x)))
                  (Finite Wpayload))
               Wpayload
               (np_mul (Finite a) (np_pow x c))).
Proof.
  intros Hx.
  destruct (fsolve_Ok _ _ _ _ _ Hx) as ((r0 & Hr0) & _).
  apply fpoids_Ok_known in Hr0.
  destruct (structure_constants_known _ Hr0) as (a & c & Hac & _).
  exists a, c. split; [assumption|].
  assert (Hit : iterate
       = Ok (x,
             np_mul (np_mul (Finite a) (np_pow x c)) (Finite x),
             np_sub (np_sub (Finite x)
                       (np_mul (np_mul (Finite a) (np_pow x c)) (Finite x)))
               (Finite Wpayload))).
  { unfold iterate, Weight.iterate_take_off_weight.
    fold residual. rewrite Hx. simpl.
    rewrite (structure_factor_known _ _ _ x Hac). reflexivity. }
  split; [assumption|].
  unfold init, Weight.init. fold iterate. rewrite Hit. simpl.
  rewrite (structure_factor_known _ _ _ x Hac). reflexivity.
Qed.

Lemma iterate_Ok_fsolve (Wto : R) (Wempty Wfuel : npfloat) :
  iterate = Ok (Wto, Wempty, Wfuel) ->
  Scipy.fsolve hybrd residual Wpayload 1e-6 = Ok Wto.
Proof.
  unfold iterate, Weight.iterate_take_off_weight. fold residual.
  intros H. apply bind_Ok in H. destruct H as (x & Hx & H).
  apply bind_Ok in H. destruct H as (sf & _ & H).
  injection H as <- _ _. assumption.
Qed.

Lemma init_Ok_fsolve (w : Weight.t) :
  init = Ok w ->
  Scipy.fsolve hybrd residual Wpayload 1e-6 = Ok (Weight.take_off w).
Proof.
  unfold init, Weight.init. fold iterate. intros H.
  apply bind_Ok in H. destruct H as ([[x e] f] & Hit & H).
  apply bind_Ok in H. destruct H as (sf & _ & H).
  injection H as <-. simpl. exact (iterate_Ok_fsolve _ _ _ Hit).
Qed.

(** An exception of the solve is one of the residual at the starting point
    or one of the iteration: the code adds none for a failed convergence. *)
Lemma iterate_Raise_origin (e : exn) :
  iterate = Raise e ->
  residual Wpayload = Raise e \/ hybrd residual Wpayload 1e-6 = Raise e.
Proof.
  unfold iterate, Weight.iterate_take_off_weight. fold residual.
  destruct (Scipy.fsolve hybrd residual Wpayload 1e-6) as [x|e'] eqn:Hx.
  - destruct (iterate_of_fsolve x Hx) as (a & c & Hac & _ & _).
    simpl. rewrite (structure_factor_known _ _ _ x Hac). discriminate.
  - simpl. intros H. injection H as ->.
    unfold Scipy.fsolve in Hx.
    destruct (residual Wpayload) as [r0|e0]; [right; exact Hx | left].
    simpl in Hx. injection Hx as ->. reflexivity.
Qed.

End SolveShape.

Lemma fsolve_no_progress (func : R -> exc npfloat) (x0 xtol : R) (r : npfloat) :
  func x0 = Ok r -> Scipy.fsolve Scipy.hybrd_no_progress func x0 xtol = Ok x0.
Proof. intros H. unfold Scipy.fsolve. rewrite H. reflexivity. Qed.

Lemma transport_jet_listed : In (lower "transport-jet") Weight.categories.
Proof. simpl. tauto. Qed.

(** The reference mission of [example.py] with the payload set to 0, solved
    by an iteration that makes no progress from its starting point: the
    starting point is the payload, 0, and it comes back as the take-off
    weight, with a structure factor, an empty weight and a fuel weight that
    are not finite. *)
Lemma payload_zero_no_progress :
  Weight.iterate_take_off_weight 1.789e-5 110.4 Scipy.hybrd_no_progress
    "transport-jet" 0.82 40000 10 0.45 45 0.05 0.01 0 3500
  = Ok (0, NonFinite, NonFinite)
  /\ Weight.init 1.789e-5 110.4 Scipy.hybrd_no_progress
       "transport-jet" 0.82 40000 10 0.45 45 0.05 0.01 0 3500
     = Ok (Weight.mk 0 NonFinite NonFinite 0 NonFinite).
Proof.
  assert (Hx : Scipy.fsolve Scipy.hybrd_no_progress
                 (fun Wto => Weight.fpoids 1.789e-5 110.4 Wto 3500
                               "transport-jet" 0 0.45 45 10 0.05 0.01 0.82 40000)
                 0 1e-6 = Ok 0).
  { apply fsolve_no_progress with (r := NonFinite).
    apply fpoids_nonpos; try lra. exact transport_jet_listed. }
  destruct (iterate_of_fsolve _ _ _ _ _ _ _ _ _ _ _ _ _ _ Hx)
    as (a & c & _ & Hit & Hin).
  rewrite np_pow_NonFinite in Hit, Hin by lra.
  split; assumption.
Qed.

(** C3 (as the code has it).  The code has no convergence test and no test
    of the sign of the root: whatever value [x] the root-finder hands back,
    be it negative, zero or the last iterate of a failed iteration, is
    returned as the take-off weight, together with the empty weight
    [structure_factor(Type, x) * x] and the fuel weight
    [x - empty - Wpayload] computed from it.  No error is raised for it. *)
Theorem solve_returns_solver_value :
  forall (viscosity_zero sutherlands_constant : R) (hybrd : Scipy.solver)
         (Type_ : string)
         (M_cruise H_cruise A TSFC T_loiter Fuel_res Fuel_trap Wpayload
            flight_range x : R),
    Scipy.fsolve hybrd
      (fun Wto =>
         Weight.fpoids viscosity_zero sutherlands_constant Wto flight_range
           Type_ Wpayload TSFC T_loiter A Fuel_res Fuel_trap M_cruise H_cruise)
      Wpayload 1e-6 = Ok x ->
    exists Sfactor : npfloat,
      Weight.structure_factor Type_ x = Ok Sfactor
      /\ Weight.iterate_take_off_weight viscosity_zero sutherlands_constant
           hybrd Type_ M_cruise H_cruise A TSFC T_loiter Fuel_res Fuel_trap
           Wpayload flight_range
         = Ok (x,
               np_mul Sfactor (Finite x),
               np_sub (np_sub (Finite x) (np_mul Sfactor (Finite x)))
                 (Finite Wpayload))
      /\ Weight.init viscosity_zero sutherlands_constant hybrd
           Type_ M_cruise H_cruise A TSFC T_loiter Fuel_res Fuel_trap
           Wpayload flight_range
         = Ok (Weight.mk x
                 (np_mul Sfactor (Finite x))
                 (np_sub (np_sub (Finite x) (np_mul Sfactor (Finite x)))
                    (Finite Wpayload))
                 Wpayload Sfactor).
Proof.
  intros vz sc hybrd Type_ M H A TSFC Tl Fr Ft Wp Rg x Hx.
  destruct (iterate_of_fsolve _ _ _ _ _ _ _ _ _ _ _ _ _ _ Hx)
    as (a & c & Hac & Hit & Hin).
  exists (np_mul (Finite a) (np_pow x c)).
  split; [|split; [exact Hit | exact Hin]].
  apply structure_factor_known. assumption.
Qed.

Lemma reference_mission_no_progress :
  Scipy.fsolve Scipy.hybrd_no_progress
    (fun Wto => Weight.fpoids 1.789e-5 110.4 Wto 3500 "transport-jet" 30750
                  0.45 45 10 0.05 0.01 0.82 40000)
    30750 1e-6 = Ok 30750.
Proof.
  destruct (fpoids_Ok 1.789e-5 110.4 ltac:(lra) 30750 3500 "transport-jet"
              30750 0.45 45 10 0.05 0.01 0.82 40000
              ltac:(lra) ltac:(lra) ltac:(lra) transport_jet_listed)
    as (r & Hr).
  apply fsolve_no_progress with (r := r). exact Hr.
Qed.

Lemma solve_returns_solver_value_witness :
  exists Sfactor : npfloat,
    Weight.structure_factor "transport-jet" 30750 = Ok Sfactor
    /\ Weight.iterate_take_off_weight 1.789e-5 110.4 Scipy.hybrd_no_progress
         "transport-jet" 0.82 40000 10 0.45 45 0.05 0.01 30750 3500
       = Ok (30750,
             np_mul Sfactor (Finite 30750),
             np_sub (np_sub (Finite 30750) (np_mul Sfactor (Finite 30750)))
               (Finite 30750))
    /\ Weight.init 1.789e-5 110.4 Scipy.hybrd_no_progress
         "transport-jet" 0.82 40000 10 0.45 45 0.05 0.01 30750 3500
       = Ok (Weight.mk 30750
               (np_mul Sfactor (Finite 30750))
               (np_sub (np_sub (Finite 30750) (np_mul Sfactor (Finite 30750)))
                  (Finite 30750))
               30750 Sfactor).
Proof.
  exact (solve_returns_solver_value 1.789e-5 110.4 Scipy.hybrd_no_progress
           "transport-jet" 0.82 40000 10 0.45 45 0.05 0.01 30750 3500 30750
           reference_mission_no_progress).
Defined.

(** C3 fails as stated: a solve whose root-finder stalls on the value 0
    returns the take-off weight 0 with non-finite empty and fuel weights; it
    raises nothing. *)
Lemma solve_returns_zero_weight :
  Weight.iterate_take_off_weight 1.789e-5 110.4 Scipy.hybrd_no_progress
    "transport-jet" 0.82 40000 10 0.45 45 0.05 0.01 0 3500
  = Ok (0, NonFinite, NonFinite).
Proof. exact (proj1 payload_zero_no_progress). Qed.

(** C2 (as the code has it).  The payload of a result is the one given.  For
    every solve that returns a positive take-off weight the breakdown closes
    within the tolerance of the solve, 1e-6: the structure factor of the
    result is the one re-evaluated at the returned take-off weight,
    [empty = structure factor * take_off],
    [fuel = take_off - empty - payload], and
    [abs(take_off - (empty + fuel + payload)) < 1e-6].  The code does not
    check the returned weight: when it is zero or negative, the structure
    factor, the empty weight and the fuel weight are not finite and the
    closure test fails at every tolerance. *)
Theorem weight_closure :
  forall (viscosity_zero sutherlands_constant : R) (hybrd : Scipy.solver)
         (Type_ : string)
         (M_cruise H_cruise A TSFC T_loiter Fuel_res Fuel_trap Wpayload
            flight_range : R)
         (w : Weight.t),
    Weight.init viscosity_zero sutherlands_constant hybrd
      Type_ M_cruise H_cruise A TSFC T_loiter Fuel_res Fuel_trap Wpayload
      flight_range = Ok w ->
    Weight.payload w = Wpayload
    /\ (0 < Weight.take_off w ->
        exists sf : R,
          Weight.structure_factor Type_ (Weight.take_off w) = Ok (Finite sf)
          /\ Weight.structure_factor_attr w = Finite sf
          /\ Weight.empty w = Finite (sf * Weight.take_off w)
          /\ Weight.fuel w
             = Finite (Weight.take_off w - sf * Weight.take_off w - Wpayload)
          /\ Weight.closes w 1e-6)
    /\ (Weight.take_off w <= 0 ->
        Weight.structure_factor Type_ (Weight.take_off w) = Ok NonFinite
        /\ Weight.structure_factor_attr w = NonFinite
        /\ Weight.empty w = NonFinite
        /\ Weight.fuel w = NonFinite
        /\ forall tol : R, ~ Weight.closes w tol).
Proof.
  intros vz sc hybrd Type_ M H A TSFC Tl Fr Ft Wp Rg w Hw.
  assert (Hx := init_Ok_fsolve _ _ _ _ _ _ _ _ _ _ _ _ _ _ Hw).
  destruct (iterate_of_fsolve _ _ _ _ _ _ _ _ _ _ _ _ _ _ Hx)
    as (a & c & Hac & _ & Hin).
  rewrite Hin in Hw. injection Hw as Hw.
  split; [rewrite <- Hw; reflexivity|].
  split.
  - intros Hpos.
    rewrite np_pow_Finite in Hw by assumption. simpl in Hw.
    exists (a * Rpower (Weight.take_off w) c).
    split; [apply structure_factor_pos; assumption|].
    split; [rewrite <- Hw at 1; reflexivity|].
    split; [rewrite <- Hw at 1; reflexivity|].
    split; [rewrite <- Hw at 1; reflexivity|].
    assert (Hgap : Weight.closure_gap w = Finite 0).
    { rewrite <- Hw. unfold Weight.closure_gap. simpl. f_equal. ring. }
    unfold Weight.closes. rewrite Hgap, Rabs_R0. lra.
  - intros Hneg.
    rewrite np_pow_NonFinite in Hw by assumption. simpl in Hw.
    split.
    { rewrite (structure_factor_known _ _ _ (Weight.take_off w) Hac).
      rewrite np_pow_NonFinite by assumption. reflexivity. }
    split; [rewrite <- Hw; reflexivity|].
    split; [rewrite <- Hw; reflexivity|].
    split; [rewrite <- Hw; reflexivity|].
    intros tol. rewrite <- Hw. intros Hc. exact Hc.
Qed.

Lemma weight_closure_witness :
  exists w : Weight.t,
    Weight.init 1.789e-5 110.4 Scipy.hybrd_no_progress
      "transport-jet" 0.82 40000 10 0.45 45 0.05 0.01 30750 3500 = Ok w
    /\ Weight.take_off w = 30750
    /\ Weight.closes w 1e-6.
Proof.
  destruct (iterate_of_fsolve _ _ _ _ _ _ _ _ _ _ _ _ _ _
              reference_mission_no_progress) as (a & c & _ & _ & Hin).
  eexists. split; [exact Hin|]. split; [reflexivity|].
  assert (Hpos : 0 < 30750) by lra.
  destruct (weight_closure _ _ _ _ _ _ _ _ _ _ _ _ _ _ Hin) as (_ & Hp & _).
  destruct (Hp Hpos) as (sf & _ & _ & _ & _ & Hc).
  exact Hc.
Defined.

(** C2 fails as stated: the solve of [payload_zero_no_progress] returns a
    result, with take-off weight 0, whose empty and fuel weights are not
    finite, so its closure test fails at every tolerance. *)
Lemma closure_fails_at_zero_weight :
  Weight.init 1.789e-5 110.4 Scipy.hybrd_no_progress
    "transport-jet" 0.82 40000 10 0.45 45 0.05 0.01 0 3500
  = Ok (Weight.mk 0 NonFinite NonFinite 0 NonFinite)
  /\ forall tol : R,
       ~ Weight.closes (Weight.mk 0 NonFinite NonFinite 0 NonFinite) tol.
Proof.
  split; [exact (proj2 payload_zero_no_progress)|].
  intros tol H. exact H.
Qed.

(** C5 (as the code has it).  For a type of the table, a positive Mach
    number and aspect ratio and an altitude that is not negative: with a
    payload of 0 the solve is the iteration started at the weight 0, the
    initial guess being the payload.  The residual is evaluated there first:
    it divides 0 by 0 and raises 0 to the negative power [c], and its value
    is not finite; nothing is raised, so the iteration runs from that point.
    The residual of a zero payload is not finite at every weight that is
    zero or negative; at every positive weight it is finite, the payload
    term being 0:
    [1 - (0 + a * Wto ** c + (1 - 0.975 * fclimb) * (1 + fcruise * floiter))]. *)
Theorem payload_zero_starts_at_singularity :
  forall (viscosity_zero sutherlands_constant : R) (Type_ : string)
         (M_cruise H_cruise A TSFC T_loiter Fuel_res Fuel_trap flight_range : R),
    0 < sutherlands_constant -> 0 <= H_cruise -> 0 < M_cruise -> 0 < A ->
    In (lower Type_) Weight.categories ->
    np_div 0 0 = NonFinite
    /\ Weight.structure_factor Type_ 0 = Ok NonFinite
    /\ (forall Wto : R, Wto <= 0 ->
          Weight.fpoids viscosity_zero sutherlands_constant Wto flight_range
            Type_ 0 TSFC T_loiter A Fuel_res Fuel_trap M_cruise H_cruise
          = Ok NonFinite)
    /\ (forall hybrd : Scipy.solver,
          Weight.iterate_take_off_weight viscosity_zero sutherlands_constant
            hybrd Type_ M_cruise H_cruise A TSFC T_loiter Fuel_res Fuel_trap
            0 flight_range
          = (Wto <- hybrd
                      (fun Wto =>
                         Weight.fpoids viscosity_zero sutherlands_constant Wto
                           flight_range Type_ 0 TSFC T_loiter A Fuel_res
                           Fuel_trap M_cruise H_cruise)
                      0 1e-6 ;;
             Sfactor <- Weight.structure_factor Type_ Wto ;;
             ret (Wto,
                  np_mul Sfactor (Finite Wto),
                  np_sub (np_sub (Finite Wto) (np_mul Sfactor (Finite Wto)))
                    (Finite 0))))
    /\ exists a c fcr flo : R,
         Weight.structure_constants (lower Type_) = Ok (a, c)
         /\ c < 0
         /\ np_pow 0 c = NonFinite
         /\ Weight.fcruise viscosity_zero sutherlands_constant M_cruise
              H_cruise A flight_range TSFC = Ok fcr
         /\ Weight.floiter M_cruise T_loiter TSFC A = Ok flo
         /\ forall Wto : R, 0 < Wto ->
              Weight.fpoids viscosity_zero sutherlands_constant Wto
                flight_range Type_ 0 TSFC T_loiter A Fuel_res Fuel_trap
                M_cruise H_cruise
              = Ok (Finite (1 - (0 + a * Rpower Wto c
                                 + (1 - 0.975 * Weight.fclimb M_cruise)
                                   * (1 + fcr * flo)))).
Proof.
  intros vz sc Type_ M H A TSFC Tl Fr Ft Rg Hsc HH HM HA Hin.
  assert (Hnp : forall Wto : R, Wto <= 0 ->
            Weight.fpoids vz sc Wto Rg Type_ 0 TSFC Tl A Fr Ft M H
            = Ok NonFinite)
    by (intros Wto HW; apply fpoids_nonpos; assumption).
  split; [apply np_div_zero|].
  split; [apply structure_factor_nonpos; [assumption | lra]|].
  split; [exact Hnp|].
  split.
  - intros hybrd.
    unfold Weight.iterate_take_off_weight, Scipy.fsolve.
    rewrite (Hnp 0) by lra. reflexivity.
  - destruct (structure_constants_known _ Hin) as (a & c & Hac & _ & Hc).
    exists a, c. do 2 eexists.
    split; [assumption|].
    split; [lra|].
    split; [apply np_pow_NonFinite; lra|].
    split; [apply (fcruise_Ok vz sc Hsc); assumption|].
    split; [apply floiter_Ok; assumption|].
    intros Wto HW.
    rewrite (fpoids_pos vz sc Hsc Wto Rg Type_ a c 0 TSFC Tl A Fr Ft M H)
      by assumption.
    do 2 f_equal. unfold Rdiv at 1. rewrite Rmult_0_l. reflexivity.
Qed.

Lemma payload_zero_starts_at_singularity_witness :
  Weight.fpoids 1.789e-5 110.4 0 3500 "Transport-Jet" 0 0.45 45 10 0.05 0.01
    0.82 40000
  = Ok NonFinite.
Proof.
  assert (Hsc : 0 < 110.4) by lra.
  assert (HH : 0 <= 40000) by lra.
  assert (HM : 0 < 0.82) by lra.
  assert (HA : 0 < 10) by lra.
  assert (Hin : In (lower "Transport-Jet") Weight.categories)
    by (simpl; tauto).
  assert (H0 : 0 <= 0) by lra.
  exact (proj1 (proj2 (proj2
           (payload_zero_starts_at_singularity 1.789e-5 110.4 "Transport-Jet"
              0.82 40000 10 0.45 45 0.05 0.01 3500 Hsc HH HM HA Hin)))
           0 H0).
Defined.

(** C5 fails as stated: on the reference mission with a payload of 0 the
    first evaluation of the residual, at the starting point 0, computes
    [0 / 0] and [0 ** -0.06], and the residual is not finite. *)
Lemma payload_zero_first_evaluation :
  np_div 0 0 = NonFinite
  /\ np_pow 0 (-0.06) = NonFinite
  /\ Weight.structure_factor "transport-jet" 0 = Ok NonFinite
  /\ Weight.fpoids 1.789e-5 110.4 0 3500 "transport-jet" 0 0.45 45 10 0.05
       0.01 0.82 40000
     = Ok NonFinite.
Proof.
  split; [apply np_div_zero|].
  split; [apply np_pow_NonFinite; lra|].
  split; [apply structure_factor_nonpos; [exact transport_jet_listed | lra]|].
  apply fpoids_nonpos; try lra. exact transport_jet_listed.
Qed.

(** ** Further properties of the solve *)

(** X3.  An exception of the solve is the one the residual raises at the
    starting point (the payload weight) or one of the iteration itself: the
    code raises none of its own after the root-finder has returned. *)
Theorem solve_exception_origin :
  forall (viscosity_zero sutherlands_constant : R) (hybrd : Scipy.solver)
         (Type_ : string)
         (M_cruise H_cruise A TSFC T_loiter Fuel_res Fuel_trap Wpayload
            flight_range : R) (e : exn),
    Weight.iterate_take_off_weight viscosity_zero sutherlands_constant hybrd
      Type_ M_cruise H_cruise A TSFC T_loiter Fuel_res Fuel_trap Wpayload
      flight_range = Raise e ->
    Weight.fpoids viscosity_zero sutherlands_constant Wpayload flight_range
      Type_ Wpayload TSFC T_loiter A Fuel_res Fuel_trap M_cruise H_cruise
    = Raise e
    \/ hybrd
         (fun W =>
            Weight.fpoids viscosity_zero sutherlands_constant W flight_range
              Type_ Wpayload TSFC T_loiter A Fuel_res Fuel_trap M_cruise
              H_cruise)
         Wpayload 1e-6 = Raise e.
Proof.
  intros vz sc hybrd Type_ M H A TSFC Tl Fr Ft Wp Rg e He.
  exact (iterate_Raise_origin _ _ _ _ _ _ _ _ _ _ _ _ _ _ He).
Qed.

Lemma solve_exception_origin_witness :
  Weight.fpoids 1.789e-5 110.4 30750 3500 "biplane-unknown" 30750 0.45 45 10
    0.05 0.01 0.82 40000
  = Raise (ValueError "Unknown aircraft type")
  \/ Scipy.hybrd_no_progress
       (fun W => Weight.fpoids 1.789e-5 110.4 W 3500 "biplane-unknown" 30750
                   0.45 45 10 0.05 0.01 0.82 40000)
       30750 1e-6 = Raise (ValueError "Unknown aircraft type").
Proof.
  exact (solve_exception_origin 1.789e-5 110.4 Scipy.hybrd_no_progress
           "biplane-unknown" 0.82 40000 10 0.45 45 0.05 0.01 30750 3500
           (ValueError "Unknown aircraft type")
           (iterate_unknown 1.789e-5 110.4 Scipy.hybrd_no_progress
              "biplane-unknown" biplane_unknown_not_listed
              0.82 40000 10 0.45 45 0.05 0.01 30750 3500)).
Defined.

(** ** The phase fractions *)

(** X4.  On the documented domain the cruise and loiter fractions are the
    Breguet exponentials, with the literal unit constants 6080, 3600 and 60
    and the lift-to-drag ratio [0.866 * finesse] in cruise. *)
Theorem phase_fractions :
  forall (viscosity_zero sutherlands_constant : R)
         (M_cruise H_cruise A Range TSFC T_loiter : R),
    0 < sutherlands_constant -> 0 <= H_cruise -> 0 < M_cruise -> 0 < A ->
    Weight.vitesse viscosity_zero sutherlands_constant M_cruise H_cruise
    = Ok (M_cruise
          * sqrt (1.4 * 286.9 * Atmosphere.temperature_at H_cruise))
    /\ Weight.fcruise viscosity_zero sutherlands_constant M_cruise H_cruise A
         Range TSFC
       = Ok (exp (- (Range * TSFC * 6080
                     / (M_cruise * Atmosphere.sound_speed_at H_cruise
                        * (0.866 * Weight.finesse M_cruise A) * 3600))))
    /\ Weight.floiter M_cruise T_loiter TSFC A
       = Ok (exp (- (T_loiter * TSFC / (Weight.finesse M_cruise A * 60)))).
Proof.
  intros vz sc M H A Rg TSFC Tl Hsc HH HM HA.
  split; [|split].
  - rewrite (vitesse_Ok vz sc Hsc) by assumption. reflexivity.
  - rewrite (fcruise_Ok vz sc Hsc) by assumption.
    f_equal. rewrite exp_Ropp. unfold Rdiv at 1. apply Rmult_1_l.
  - rewrite floiter_Ok by assumption.
    f_equal. rewrite exp_Ropp. unfold Rdiv at 1. apply Rmult_1_l.
Qed.

Lemma phase_fractions_witness :
  Weight.floiter 0.82 45 0.45 10
  = Ok (exp (- (45 * 0.45 / (Weight.finesse 0.82 10 * 60)))).
Proof.
  assert (Hsc : 0 < 110.4) by lra.
  assert (HH : 0 <= 40000) by lra.
  assert (HM : 0 < 0.82) by lra.
  assert (HA : 0 < 10) by lra.
  exact (proj2 (proj2 (phase_fractions 1.789e-5 110.4 0.82 40000 10 3500 0.45
                         45 Hsc HH HM HA))).
Defined.

Lemma finesse_at_Mach_one (A : R) : Weight.finesse 1 A = 11.
Proof.
  unfold Weight.finesse, py_pow, Rpower.
  destruct (Rlt_dec 1 1); [lra|].
  rewrite ln_1, Rmult_0_r, exp_0. ring.
Qed.

(** X5.  The finesse switches formula at Mach 1; it is continuous there for
    the aspect ratio 1 only. *)
Theorem finesse_continuous_at_Mach_one :
  forall A : R,
    continuity_pt (fun Mach => Weight.finesse Mach A) 1 <-> A = 1.
Proof.
  intros A. split.
  - intros Hc. destruct (Req_dec_T A 1) as [|Hne]; [assumption|exfalso].
    assert (Heps : 0 < Rabs (A - 1)) by (apply Rabs_pos_lt; lra).
    destruct (Hc (Rabs (A - 1)) Heps) as (d & Hd & H).
    specialize (H (1 - d / 2)). simpl in H.
    unfold R_dist, D_x, no_cond in H.
    assert (Hx : Rabs (1 - d / 2 - 1) < d).
    { replace (1 - d / 2 - 1) with (- (d / 2)) by ring.
      rewrite Rabs_Ropp, Rabs_pos_eq; lra. }
    assert (Hne1 : 1 <> 1 - d / 2) by (intros E; lra).
    assert (Hlt := H (conj (conj I Hne1) Hx)).
    rewrite finesse_at_Mach_one in Hlt.
    unfold Weight.finesse in Hlt.
    destruct (Rlt_dec (1 - d / 2) 1); [|lra].
    replace (A + 10 - 11) with (A - 1) in Hlt by ring. lra.
  - intros ->.
    apply continuity_pt_glue
      with (f := fun _ => 11) (g := fun Mach => 11 * Rpower Mach (-0.5)).
    + reg.
    + unfold Rpower. reg. apply continuity_pt_ln. lra.
    + unfold Rpower. rewrite ln_1, Rmult_0_r, exp_0. ring.
    + intros x Hx. unfold Weight.finesse.
      destruct (Rlt_dec x 1); [ring | contradiction].
    + intros x Hx. unfold Weight.finesse, py_pow.
      destruct (Rlt_dec x 1); [lra | reflexivity].
Qed.

(** ** The residual as a function of the take-off weight *)

Lemma fclimb_bounds (M_cruise : R) :
  0 <= M_cruise <= 15 -> 0.54 <= Weight.fclimb M_cruise <= 1.
Proof.
  intros [H0 H15]. unfold Weight.fclimb.
  destruct (Rlt_dec M_cruise 1); lra.
Qed.

Lemma floiter_Ok_inv (M_cruise T_loiter TSFC A flo : R) :
  Weight.floiter M_cruise T_loiter TSFC A = Ok flo ->
  Weight.finesse M_cruise A * 60 <> 0
  /\ flo = 1 / exp (T_loiter * TSFC / (Weight.finesse M_cruise A * 60)).
Proof.
  unfold Weight.floiter, py_div.
  destruct (Req_dec_T (Weight.finesse M_cruise A * 60) 0) as [E|E]; simpl.
  - discriminate.
  - intros H. injection H as <-. split; [assumption | reflexivity].
Qed.

Lemma inv_exp_pos (q : R) : 0 < 1 / exp q.
Proof. apply Rdiv_lt_0_compat; [lra | apply exp_pos]. Qed.

Lemma inv_exp_le_1 (q : R) : 0 <= q -> 1 / exp q <= 1.
Proof.
  intros Hq. assert (He : 1 <= exp q).
  { rewrite <- exp_0. destruct Hq as [Hq| <-]; [|lra].
    left. apply exp_increasing. assumption. }
  assert (Hp := exp_pos q).
  apply Rmult_le_reg_r with (exp q); [assumption|].
  unfold Rdiv. rewrite Rmult_assoc, Rinv_l by lra. lra.
Qed.

Section Residual.

Variables viscosity_zero sutherlands_constant : R.
Variable Type_ : string.
Variables Range Wpayload TSFC T_loiter A Fuel_res Fuel_trap M_cruise
  H_cruise : R.

Let residual : R -> exc npfloat :=
  fun Wto =>
    Weight.fpoids viscosity_zero sutherlands_constant Wto Range Type_
      Wpayload TSFC T_loiter A Fuel_res Fuel_trap M_cruise H_cruise.

Lemma fcruise_Ok_pos (fcr : R) :
  Weight.fcruise viscosity_zero sutherlands_constant M_cruise H_cruise A
    Range TSFC = Ok fcr ->
  0 < fcr.
Proof.
  unfold Weight.fcruise. intros H.
  apply bind_Ok in H. destruct H as (vc & _ & H).
  apply bind_Ok in H. destruct H as (q & _ & H).
  injection H as <-. apply inv_exp_pos.
Qed.

(** What a value of the residual tells: the type is in the table, the two
    phase fractions are defined and positive, and the value is the closure
    expression in numpy arithmetic. *)
Lemma fpoids_Ok_inv (Wto : R) (r : npfloat) :
  residual Wto = Ok r ->
  exists a c fcr flo : R,
    Weight.structure_constants (lower Type_) = Ok (a, c)
    /\ 0 < a /\ -1 < c < 0
    /\ Weight.fcruise viscosity_zero sutherlands_constant M_cruise H_cruise A
         Range TSFC = Ok fcr
    /\ Weight.floiter M_cruise T_loiter TSFC A = Ok flo
    /\ 0 < fcr /\ 0 < flo
    /\ r = np_sub (Finite 1)
             (np_add (np_add (np_div Wpayload Wto)
                        (np_mul (Finite a) (np_pow Wto c)))
                (Finite ((1 - 0.975 * Weight.fclimb M_cruise)
                         * (1 + fcr * flo)))).
Proof.
  unfold residual, Weight.fpoids. intros H.
  apply bind_Ok in H. destruct H as (sf & Hsf & H).
  apply bind_Ok in H. destruct H as (fcr & Hc & H).
  apply bind_Ok in H. destruct H as (flo & Hl & H).
  injection H as <-.
  assert (Hin := structure_factor_Ok_known _ _ _ Hsf).
  destruct (structure_constants_known _ Hin) as (a & c & Hac & Ha & Hcneg).
  rewrite (structure_factor_known _ _ _ Wto Hac) in Hsf. injection Hsf as <-.
  exists a, c, fcr, flo.
  repeat (split; [first [assumption | lra]|]).
  split; [exact (fcruise_Ok_pos _ Hc)|].
  split; [|reflexivity].
  destruct (floiter_Ok_inv _ _ _ _ _ Hl) as (_ & ->). apply inv_exp_pos.
Qed.

Lemma fpoids_Finite_inv (Wto r : R) :
  0 < Wto -> residual Wto = Ok (Finite r) ->
  exists a c fcr flo : R,
    Weight.structure_constants (lower Type_) = Ok (a, c)
    /\ 0 < a /\ -1 < c < 0
    /\ Weight.fcruise viscosity_zero sutherlands_constant M_cruise H_cruise A
         Range TSFC = Ok fcr
    /\ Weight.floiter M_cruise T_loiter TSFC A = Ok flo
    /\ 0 < fcr /\ 0 < flo
    /\ r = 1 - (Wpayload / Wto + a * Rpower Wto c
                + (1 - 0.975 * Weight.fclimb M_cruise) * (1 + fcr * flo)).
Proof.
  intros HW H.
  destruct (fpoids_Ok_inv _ _ H)
    as (a & c & fcr & flo & Hac & Ha & Hc & Hcr & Hlo & Hfcr & Hflo & Hr).
  exists a, c, fcr, flo.
  repeat (split; [assumption|]).
  rewrite np_div_Finite, np_pow_Finite in Hr by lra.
  simpl in Hr. injection Hr as ->. reflexivity.
Qed.

(** For a payload that is not negative the residual grows strictly with a
    positive take-off weight. *)
Lemma residual_value_increasing (W1 W2 r1 r2 : R) :
  0 <= Wpayload -> 0 < W1 < W2 ->
  residual W1 = Ok (Finite r1) -> residual W2 = Ok (Finite r2) ->
  r1 < r2.
Proof.
  intros HWp [H1 H12] Hr1 Hr2.
  destruct (fpoids_Finite_inv W1 r1 H1 Hr1)
    as (a & c & fcr & flo & Hac & Ha & Hc & Hcr & Hlo & _ & _ & ->).
  destruct (fpoids_Finite_inv W2 r2 ltac:(lra) Hr2)
    as (a' & c' & fcr' & flo' & Hac' & _ & _ & Hcr' & Hlo' & _ & _ & ->).
  rewrite Hac in Hac'. injection Hac' as <- <-.
  rewrite Hcr in Hcr'. injection Hcr' as <-.
  rewrite Hlo in Hlo'. injection Hlo' as <-.
  assert (Hpow : a * Rpower W2 c < a * Rpower W1 c).
  { apply Rmult_lt_compat_l; [assumption|].
    apply Rpower_neg_decreasing; lra. }
  assert (Hdiv : Wpayload / W2 <= Wpayload / W1).
  { unfold Rdiv. apply Rmult_le_compat_l; [assumption|].
    apply Rinv_le_contravar; lra. }
  lra.
Qed.

Lemma residual_root_unique (W1 W2 : R) :
  0 <= Wpayload -> 0 < W1 -> 0 < W2 ->
  residual W1 = Ok (Finite 0) -> residual W2 = Ok (Finite 0) ->
  W1 = W2.
Proof.
  intros HWp H1 H2 Hr1 Hr2.
  destruct (Rtotal_order W1 W2) as [Hlt|[Heq|Hgt]]; [exfalso|assumption|exfalso].
  - assert (H := residual_value_increasing W1 W2 0 0 HWp (conj H1 Hlt) Hr1 Hr2).
    lra.
  - assert (H := residual_value_increasing W2 W1 0 0 HWp (conj H2 Hgt) Hr2 Hr1).
    lra.
Qed.

(** At the starting point of the solve, the payload weight, the residual is
    negative: the payload fraction is 1 there. *)
Lemma residual_at_payload_negative (r : R) :
  0 < Wpayload -> 0 <= M_cruise <= 15 ->
  residual Wpayload = Ok (Finite r) -> r < 0.
Proof.
  intros HWp HM Hr.
  destruct (fpoids_Finite_inv Wpayload r HWp Hr)
    as (a & c & fcr & flo & _ & Ha & _ & _ & _ & Hfcr & Hflo & ->).
  assert (Hf := fclimb_bounds M_cruise HM).
  assert (Hp := Rpower_pos Wpayload c).
  assert (0 < a * Rpower Wpayload c) by (apply Rmult_lt_0_compat; assumption).
  assert (0 < fcr * flo) by (apply Rmult_lt_0_compat; assumption).
  assert (0 < (1 - 0.975 * Weight.fclimb M_cruise) * (1 + fcr * flo))
    by (apply Rmult_lt_0_compat; lra).
  replace (Wpayload / Wpayload) with 1 by (field; lra).
  lra.
Qed.

End Residual.

(** The closure equation [1 = Wp / W + a * W ** c + K] has a solution above
    the payload weight whenever the mission fraction [K] lies strictly
    between 0 and 1. *)
Lemma closure_root_exists (Wp a c K : R) :
  0 < Wp -> 0 < a -> c < 0 -> 0 < K < 1 ->
  exists W : R, Wp < W /\ 1 - (Wp / W + a * Rpower W c + K) = 0.
Proof.
  intros HWp Ha Hc [HK0 HK1].
  set (g := fun W : R => 1 - (Wp / W + a * Rpower W c + K)).
  set (m := 1 - K). assert (Hm : 0 < m < 1) by (unfold m; lra).
  set (B := Rpower (2 * a / m) (/ (- c))).
  assert (HB : 0 < B) by apply Rpower_pos.
  assert (H2am : 0 < 2 * a / m) by (apply Rdiv_lt_0_compat; lra).
  assert (HBc : Rpower B c = m / (2 * a)).
  { unfold B. rewrite Rpower_mult.
    replace (/ - c * c) with (- (1)) by (field; lra).
    rewrite Rpower_Ropp, Rpower_1 by assumption. field. lra. }
  set (Wh := 2 * Wp / m + B).
  assert (H2Wp : 2 * Wp < 2 * Wp / m).
  { assert (E : 2 * Wp / m = 2 * Wp + 2 * Wp * (1 - m) / m) by (field; lra).
    assert (0 < 2 * Wp * (1 - m) / m) by (apply Rdiv_lt_0_compat; nra).
    lra. }
  assert (HWh : Wp < Wh) by (unfold Wh; lra).
  assert (Hlo : g Wp < 0).
  { unfold g. replace (Wp / Wp) with 1 by (field; lra).
    assert (0 < a * Rpower Wp c)
      by (apply Rmult_lt_0_compat; [assumption | apply Rpower_pos]).
    lra. }
  assert (Hhi : 0 < g Wh).
  { unfold g.
    assert (H1 : Wp / Wh < m / 2).
    { apply Rmult_lt_reg_r with Wh; [lra|].
      replace (Wp / Wh * Wh) with Wp by (field; lra).
      assert (E : m * Wh = 2 * Wp + m * B) by (unfold Wh; field; lra).
      assert (0 < m * B) by (apply Rmult_lt_0_compat; lra).
      lra. }
    assert (H2 : a * Rpower Wh c < m / 2).
    { replace (m / 2) with (a * (m / (2 * a))) by (field; lra).
      apply Rmult_lt_compat_l; [assumption|]. rewrite <- HBc.
      apply Rpower_neg_decreasing; [assumption|]. unfold Wh. split; lra. }
    unfold m in *. lra. }
  assert (Hcont : forall x : R, Wp <= x <= Wh -> continuity_pt g x).
  { intros x [Hx _]. unfold g, Rpower. reg.
    - apply continuity_pt_ln. lra.
    - lra. }
  destruct (Ranalysis5.IVT_interv g Wp Wh Hcont HWh Hlo Hhi) as (z & [Hz1 Hz2] & Hz).
  exists z. split; [|exact Hz].
  destruct Hz1 as [Hlt|Heq]; [assumption|].
  subst z. lra.
Qed.

Section MissionFraction.

Variables viscosity_zero sutherlands_constant : R.
Variables M_cruise H_cruise A Range TSFC T_loiter : R.
Hypothesis sutherland_pos : 0 < sutherlands_constant.
Hypothesis altitude_nonneg : 0 <= H_cruise.
Hypothesis mach_range : 0 < M_cruise <= 15.
Hypothesis aspect_pos : 0 < A.
Hypothesis range_nonneg : 0 <= Range.
Hypothesis tsfc_nonneg : 0 <= TSFC.
Hypothesis loiter_nonneg : 0 <= T_loiter.

(** On the documented domain both phase fractions are weight fractions, in
    (0, 1], and the part of the closure equation that does not depend on the
    take-off weight lies strictly between 0 and 1. *)
Lemma mission_fraction_bounds :
  exists fcr flo : R,
    Weight.fcruise viscosity_zero sutherlands_constant M_cruise H_cruise A
      Range TSFC = Ok fcr
    /\ Weight.floiter M_cruise T_loiter TSFC A = Ok flo
    /\ 0 < fcr <= 1 /\ 0 < flo <= 1
    /\ 0 < (1 - 0.975 * Weight.fclimb M_cruise) * (1 + fcr * flo) < 1.
Proof.
  assert (Hf := finesse_pos M_cruise A aspect_pos).
  assert (Hs := sound_speed_pos H_cruise).
  assert (HM : 0 < M_cruise) by lra.
  do 2 eexists.
  split; [apply (fcruise_Ok _ _ sutherland_pos); assumption|].
  split; [apply floiter_Ok; assumption|].
  set (qc := Range * TSFC * 6080
             / (M_cruise * Atmosphere.sound_speed_at H_cruise
                * (0.866 * Weight.finesse M_cruise A) * 3600)).
  set (ql := T_loiter * TSFC / (Weight.finesse M_cruise A * 60)).
  assert (Hqc : 0 <= qc).
  { unfold qc. apply Rmult_le_pos.
    - apply Rmult_le_pos; [apply Rmult_le_pos; assumption | lra].
    - left. apply Rinv_0_lt_compat.
      assert (0 < M_cruise * Atmosphere.sound_speed_at H_cruise)
        by (apply Rmult_lt_0_compat; assumption).
      assert (0 < M_cruise * Atmosphere.sound_speed_at H_cruise
                  * (0.866 * Weight.finesse M_cruise A))
        by (apply Rmult_lt_0_compat; lra).
      lra. }
  assert (Hql : 0 <= ql).
  { unfold ql. apply Rmult_le_pos.
    - apply Rmult_le_pos; assumption.
    - left. apply Rinv_0_lt_compat. lra. }
  assert (Hc := conj (inv_exp_pos qc) (inv_exp_le_1 qc Hqc)).
  assert (Hl := conj (inv_exp_pos ql) (inv_exp_le_1 ql Hql)).
  split; [exact Hc|]. split; [exact Hl|].
  assert (Hb := fclimb_bounds M_cruise ltac:(lra)).
  assert (Hp : 0 < 1 / exp qc * (1 / exp ql))
    by (apply Rmult_lt_0_compat; lra).
  assert (Hp1 : 1 / exp qc * (1 / exp ql) <= 1) by nra.
  split; nra.
Qed.

Variable Type_ : string.
Variables Wpayload Fuel_res Fuel_trap : R.
Hypothesis listed : In (lower Type_) Weight.categories.
Hypothesis payload_pos : 0 < Wpayload.

Lemma residual_root_exists :
  exists W : R,
    Wpayload < W
    /\ Weight.fpoids viscosity_zero sutherlands_constant W Range Type_
         Wpayload TSFC T_loiter A Fuel_res Fuel_trap M_cruise H_cruise
       = Ok (Finite 0).
Proof.
  destruct mission_fraction_bounds as (fcr & flo & Hc & Hl & _ & _ & HK).
  destruct (structure_constants_known _ listed) as (a & c & Hac & Ha & Hcneg).
  destruct (closure_root_exists Wpayload a c _ payload_pos Ha ltac:(lra) HK)
    as (W & HW & Hroot).
  exists W. split; [assumption|].
  assert (HWpos : 0 < W) by lra.
  unfold Weight.fpoids.
  rewrite (structure_factor_pos _ _ _ _ Hac HWpos), Hc, Hl.
  rewrite np_div_Finite by lra. simpl. rewrite Hroot. reflexivity.
Qed.

End MissionFraction.

(** ** The value a solve returns *)




(** X6.  For a payload that is not negative the residual is a strictly
    increasing function of the take-off weight on the positive weights. *)
Theorem residual_increasing :
  forall (viscosity_zero sutherlands_constant : R) (Type_ : string)
         (Range Wpayload TSFC T_loiter A Fuel_res Fuel_trap M_cruise H_cruise
            W1 W2 r1 r2 : R),
    0 <= Wpayload -> 0 < W1 < W2 ->
    Weight.fpoids viscosity_zero sutherlands_constant W1 Range Type_ Wpayload
      TSFC T_loiter A Fuel_res Fuel_trap M_cruise H_cruise = Ok (Finite r1) ->
    Weight.fpoids viscosity_zero sutherlands_constant W2 Range Type_ Wpayload
      TSFC T_loiter A Fuel_res Fuel_trap M_cruise H_cruise = Ok (Finite r2) ->
    r1 < r2.
Proof.
  intros vz sc Type_ Rg Wp TSFC Tl A Fr Ft M H W1 W2 r1 r2 HWp HW H1 H2.
  exact (residual_value_increasing vz sc Type_ Rg Wp TSFC Tl A Fr Ft M H
           W1 W2 r1 r2 HWp HW H1 H2).
Qed.

Lemma residual_increasing_witness :
  exists r1 r2 : R,
    Weight.fpoids 1.789e-5 110.4 100000 3500 "transport-jet" 30750 0.45 45 10
      0.05 0.01 0.82 40000 = Ok (Finite r1)
    /\ Weight.fpoids 1.789e-5 110.4 200000 3500 "transport-jet" 30750 0.45 45
         10 0.05 0.01 0.82 40000 = Ok (Finite r2)
    /\ r1 < r2.
Proof.
  assert (Hsc : 0 < 110.4) by lra.
  assert (HH : 0 <= 40000) by lra.
  assert (HM : 0 < 0.82) by lra.
  assert (HA : 0 < 10) by lra.
  assert (HW1 : 0 < 100000) by lra.
  assert (HW2 : 0 < 200000) by lra.
  assert (HWp : 0 <= 30750) by lra.
  assert (HW : 0 < 100000 < 200000) by lra.
  pose (H1 := fpoids_pos 1.789e-5 110.4 Hsc 100000 3500 "transport-jet"
                1.02 (-0.06) 30750 0.45 45 10 0.05 0.01 0.82 40000
                HH HM HA eq_refl HW1).
  pose (H2 := fpoids_pos 1.789e-5 110.4 Hsc 200000 3500 "transport-jet"
                1.02 (-0.06) 30750 0.45 45 10 0.05 0.01 0.82 40000
                HH HM HA eq_refl HW2).
  do 2 eexists. split; [exact H1|]. split; [exact H2|].
  exact (residual_increasing _ _ _ _ _ _ _ _ _ _ _ _ _ _ _ _ HWp HW H1 H2).
Defined.

(** X7.  At the starting point of the solve, the payload weight itself, the
    residual of a positive payload is negative: the starting point is never
    a root. *)
Theorem residual_negative_at_start :
  forall (viscosity_zero sutherlands_constant : R) (Type_ : string)
         (Range Wpayload TSFC T_loiter A Fuel_res Fuel_trap M_cruise H_cruise
            r : R),
    0 < Wpayload -> 0 <= M_cruise <= 15 ->
    Weight.fpoids viscosity_zero sutherlands_constant Wpayload Range Type_
      Wpayload TSFC T_loiter A Fuel_res Fuel_trap M_cruise H_cruise
    = Ok (Finite r) ->
    r < 0.
Proof.
  intros vz sc Type_ Rg Wp TSFC Tl A Fr Ft M H r HWp HM Hr.
  exact (residual_at_payload_negative vz sc Type_ Rg Wp TSFC Tl A Fr Ft M H r
           HWp HM Hr).
Qed.

Lemma residual_negative_at_start_witness :
  exists r : R,
    Weight.fpoids 1.789e-5 110.4 30750 3500 "transport-jet" 30750 0.45 45 10
      0.05 0.01 0.82 40000 = Ok (Finite r)
    /\ r < 0.
Proof.
  assert (Hsc : 0 < 110.4) by lra.
  assert (HH : 0 <= 40000) by lra.
  assert (HM : 0 < 0.82) by lra.
  assert (HA : 0 < 10) by lra.
  assert (HWp : 0 < 30750) by lra.
  assert (HM' : 0 <= 0.82 <= 15) by lra.
  pose (H1 := fpoids_pos 1.789e-5 110.4 Hsc 30750 3500 "transport-jet"
                1.02 (-0.06) 30750 0.45 45 10 0.05 0.01 0.82 40000
                HH HM HA eq_refl HWp).
  eexists. split; [exact H1|].
  exact (residual_negative_at_start _ _ _ _ _ _ _ _ _ _ _ _ _ HWp HM' H1).
Defined.

(** X8.  On the documented domain (Mach number in (0, 15], positive aspect
    ratio, range, consumption and loiter time not negative, a type of the
    table) and for a positive payload, the residual has exactly one positive
    root, and that root is above the payload weight. *)
Theorem takeoff_weight_exists_unique :
  forall (viscosity_zero sutherlands_constant : R) (Type_ : string)
         (M_cruise H_cruise A TSFC T_loiter Fuel_res Fuel_trap Wpayload
            flight_range : R),
    0 < sutherlands_constant -> 0 <= H_cruise -> 0 < M_cruise <= 15 ->
    0 < A -> 0 <= flight_range -> 0 <= TSFC -> 0 <= T_loiter ->
    In (lower Type_) Weight.categories -> 0 < Wpayload ->
    exists Wto : R,
      Wpayload < Wto
      /\ Weight.fpoids viscosity_zero sutherlands_constant Wto flight_range
           Type_ Wpayload TSFC T_loiter A Fuel_res Fuel_trap M_cruise H_cruise
         = Ok (Finite 0)
      /\ forall W : R, 0 < W ->
           Weight.fpoids viscosity_zero sutherlands_constant W flight_range
             Type_ Wpayload TSFC T_loiter A Fuel_res Fuel_trap M_cruise
             H_cruise = Ok (Finite 0) ->
           W = Wto.
Proof.
  intros vz sc Type_ M H A TSFC Tl Fr Ft Wp Rg Hsc HH HM HA HR HT HL Hin HWp.
  destruct (residual_root_exists vz sc M H A Rg TSFC Tl Hsc HH HM HA HR HT HL
              Type_ Wp Fr Ft Hin HWp) as (Wto & HW & Hroot).
  exists Wto. split; [assumption|]. split; [assumption|].
  intros W HWpos HWroot.
  apply (residual_root_unique vz sc Type_ Rg Wp TSFC Tl A Fr Ft M H);
    try assumption; lra.
Qed.

Lemma takeoff_weight_exists_unique_witness :
  exists Wto : R,
    30750 < Wto
    /\ Weight.fpoids 1.789e-5 110.4 Wto 3500 "transport-jet" 30750 0.45 45 10
         0.05 0.01 0.82 40000 = Ok (Finite 0).
Proof.
  assert (Hsc : 0 < 110.4) by lra.
  assert (HH : 0 <= 40000) by lra.
  assert (HM : 0 < 0.82 <= 15) by lra.
  assert (HA : 0 < 10) by lra.
  assert (HR : 0 <= 3500) by lra.
  assert (HT : 0 <= 0.45) by lra.
  assert (HL : 0 <= 45) by lra.
  assert (HWp : 0 < 30750) by lra.
  destruct (takeoff_weight_exists_unique 1.789e-5 110.4 "transport-jet"
              0.82 40000 10 0.45 45 0.05 0.01 30750 3500
              Hsc HH HM HA HR HT HL transport_jet_listed HWp)
    as (Wto & HW & Hroot & _).
  exists Wto. split; assumption.
Defined.

(** X9.  When the take-off weight a solve returns is positive and is a root
    of the residual, the breakdown is physical: the empty weight is positive,
    the fuel weight is the mission fraction
    [(1 - 0.975 * fclimb) * (1 + fcruise * floiter)] of the take-off weight,
    so positive too, and the three weights add up to the take-off weight. *)
Theorem weights_at_root :
  forall (viscosity_zero sutherlands_constant : R) (hybrd : Scipy.solver)
         (Type_ : string)
         (M_cruise H_cruise A TSFC T_loiter Fuel_res Fuel_trap Wpayload
            flight_range : R)
         (w : Weight.t),
    Weight.init viscosity_zero sutherlands_constant hybrd
      Type_ M_cruise H_cruise A TSFC T_loiter Fuel_res Fuel_trap Wpayload
      flight_range = Ok w ->
    0 < Weight.take_off w -> 0 <= M_cruise <= 15 ->
    Weight.fpoids viscosity_zero sutherlands_constant (Weight.take_off w)
      flight_range Type_ Wpayload TSFC T_loiter A Fuel_res Fuel_trap M_cruise
      H_cruise = Ok (Finite 0) ->
    exists e f fcr flo : R,
      Weight.empty w = Finite e /\ Weight.fuel w = Finite f
      /\ Weight.fcruise viscosity_zero sutherlands_constant M_cruise H_cruise
           A flight_range TSFC = Ok fcr
      /\ Weight.floiter M_cruise T_loiter TSFC A = Ok flo
      /\ f = (1 - 0.975 * Weight.fclimb M_cruise) * (1 + fcr * flo)
             * Weight.take_off w
      /\ 0 < e /\ 0 < f
      /\ e + f + Wpayload = Weight.take_off w.
Proof.
  intros vz sc hybrd Type_ M H A TSFC Tl Fr Ft Wp Rg w Hw Hpos HM Hroot.
  assert (Hx := init_Ok_fsolve _ _ _ _ _ _ _ _ _ _ _ _ _ _ Hw).
  destruct (iterate_of_fsolve _ _ _ _ _ _ _ _ _ _ _ _ _ _ Hx)
    as (a & c & Hac & _ & Hin).
  rewrite Hin in Hw. injection Hw as Hw.
  rewrite np_pow_Finite in Hw by assumption. simpl in Hw.
  destruct (fpoids_Finite_inv vz sc Type_ Rg Wp TSFC Tl A Fr Ft M H
              (Weight.take_off w) 0 Hpos Hroot)
    as (a' & c' & fcr & flo & Hac' & Ha & _ & Hcr & Hlo & Hfcr & Hflo & Heq).
  rewrite Hac in Hac'. injection Hac' as <- <-.
  set (x := Weight.take_off w) in *.
  set (K := (1 - 0.975 * Weight.fclimb M) * (1 + fcr * flo)) in *.
  assert (Hfuel : x - a * Rpower x c * x - Wp = K * x).
  { assert (E : Wp / x * x = Wp) by (field; lra). nra. }
  assert (HK : 0 < K).
  { unfold K. assert (Hb := fclimb_bounds M HM).
    assert (0 < fcr * flo) by (apply Rmult_lt_0_compat; assumption).
    apply Rmult_lt_0_compat; lra. }
  exists (a * Rpower x c * x), (K * x), fcr, flo.
  split; [rewrite <- Hw; reflexivity|].
  split; [rewrite <- Hw; simpl; rewrite Hfuel; reflexivity|].
  split; [assumption|]. split; [assumption|]. split; [reflexivity|].
  assert (Hp := Rpower_pos x c).
  assert (0 < a * Rpower x c) by (apply Rmult_lt_0_compat; assumption).
  split; [apply Rmult_lt_0_compat; assumption|].
  split; [apply Rmult_lt_0_compat; assumption|].
  lra.
Qed.

Lemma weights_at_root_witness :
  exists (hybrd : Scipy.solver) (w : Weight.t) (e f : R),
    Weight.init 1.789e-5 110.4 hybrd "transport-jet" 0.82 40000 10 0.45 45
      0.05 0.01 30750 3500 = Ok w
    /\ Weight.empty w = Finite e /\ Weight.fuel w = Finite f
    /\ 0 < e /\ 0 < f /\ e + f + 30750 = Weight.take_off w.
Proof.
  assert (Hsc : 0 < 110.4) by lra.
  assert (HH : 0 <= 40000) by lra.
  assert (HM : 0 < 0.82 <= 15) by lra.
  assert (HM' : 0 <= 0.82 <= 15) by lra.
  assert (HM0 : 0 < 0.82) by lra.
  assert (HA : 0 < 10) by lra.
  assert (HR : 0 <= 3500) by lra.
  assert (HT : 0 <= 0.45) by lra.
  assert (HL : 0 <= 45) by lra.
  assert (HWp : 0 < 30750) by lra.
  destruct (residual_root_exists 1.789e-5 110.4 0.82 40000 10 3500 0.45 45
              Hsc HH HM HA HR HT HL "transport-jet" 30750 0.05 0.01
              transport_jet_listed HWp) as (W & HW & Hroot).
  destruct (fpoids_Ok 1.789e-5 110.4 Hsc 30750 3500 "transport-jet" 30750
              0.45 45 10 0.05 0.01 0.82 40000 HH HM0 HA transport_jet_listed)
    as (r0 & Hr0).
  assert (Hx : Scipy.fsolve (fun _ _ _ => Ok W)
                 (fun Wto => Weight.fpoids 1.789e-5 110.4 Wto 3500
                               "transport-jet" 30750 0.45 45 10 0.05 0.01
                               0.82 40000)
                 30750 1e-6 = Ok W)
    by (unfold Scipy.fsolve; rewrite Hr0; reflexivity).
  destruct (iterate_of_fsolve _ _ _ _ _ _ _ _ _ _ _ _ _ _ Hx)
    as (a & c & _ & _ & Hin).
  assert (HWpos : 0 < W) by lra.
  destruct (weights_at_root _ _ _ _ _ _ _ _ _ _ _ _ _ _ Hin HWpos HM' Hroot)
    as (e & f & fcr & flo & He & Hf & _ & _ & _ & He0 & Hf0 & Hsum).
  exists (fun _ _ _ => Ok W). eexists. exists e, f.
  split; [exact Hin|]. repeat split; assumption.
Defined.

(** X10.  The climb fraction decreases strictly with the Mach number, and
    its two formulas meet at Mach 1, where it is continuous with the value
    0.96. *)
Theorem fclimb_decreasing :
  forall M1 M2 : R, M1 < M2 ->
    Weight.fclimb M2 < Weight.fclimb M1
    /\ Weight.fclimb 1 = 0.96
    /\ continuity_pt Weight.fclimb 1.
Proof.
  intros M1 M2 HM. split; [|split].
  - unfold Weight.fclimb.
    destruct (Rlt_dec M1 1), (Rlt_dec M2 1); lra.
  - unfold Weight.fclimb. destruct (Rlt_dec 1 1); lra.
  - apply continuity_pt_glue
      with (f := fun M => 1 - 0.04 * M) (g := fun M => 0.96 - 0.03 * (M - 1)).
    + reg.
    + reg.
    + lra.
    + intros x Hx. unfold Weight.fclimb.
      destruct (Rlt_dec x 1); [reflexivity | contradiction].
    + intros x Hx. unfold Weight.fclimb.
      destruct (Rlt_dec x 1); [lra | reflexivity].
Qed.

Lemma fclimb_decreasing_witness : Weight.fclimb 2 < Weight.fclimb 0.82.
Proof.
  assert (H : 0.82 < 2) by lra.
  exact (proj1 (fclimb_decreasing 0.82 2 H)).
Defined.

(** X11.  On the documented domain the cruise and loiter fractions are
    defined, never negative and at most 1, and the share
    [(1 - 0.975 * fclimb) * (1 + fcruise * floiter)] of the take-off weight
    that the closure equation gives to the mission lies strictly between 0
    and 1. *)
Theorem phase_fractions_bounds :
  forall (viscosity_zero sutherlands_constant : R)
         (M_cruise H_cruise A Range TSFC T_loiter : R),
    0 < sutherlands_constant -> 0 <= H_cruise -> 0 < M_cruise <= 15 ->
    0 < A -> 0 <= Range -> 0 <= TSFC -> 0 <= T_loiter ->
    exists fcr flo : R,
      Weight.fcruise viscosity_zero sutherlands_constant M_cruise H_cruise A
        Range TSFC = Ok fcr
      /\ Weight.floiter M_cruise T_loiter TSFC A = Ok flo
      /\ 0 <= fcr <= 1 /\ 0 <= flo <= 1
      /\ 0 < (1 - 0.975 * Weight.fclimb M_cruise) * (1 + fcr * flo) < 1.
Proof.
  intros vz sc M H A Rg TSFC Tl Hsc HH HM HA HR HT HL.
  destruct (mission_fraction_bounds vz sc M H A Rg TSFC Tl
              Hsc HH HM HA HR HT HL)
    as (fcr & flo & Hc & Hl & Hfc & Hfl & HK).
  exists fcr, flo.
  split; [assumption|]. split; [assumption|].
  split; [lra|]. split; [lra | exact HK].
Qed.

Lemma phase_fractions_bounds_witness :
  exists fcr flo : R,
    Weight.fcruise 1.789e-5 110.4 0.82 40000 10 3500 0.45 = Ok fcr
    /\ Weight.floiter 0.82 45 0.45 10 = Ok flo
    /\ 0 <= fcr <= 1 /\ 0 <= flo <= 1
    /\ 0 < (1 - 0.975 * Weight.fclimb 0.82) * (1 + fcr * flo) < 1.
Proof.
  assert (Hsc : 0 < 110.4) by lra.
  assert (HH : 0 <= 40000) by lra.
  assert (HM : 0 < 0.82 <= 15) by lra.
  assert (HA : 0 < 10) by lra.
  assert (HR : 0 <= 3500) by lra.
  assert (HT : 0 <= 0.45) by lra.
  assert (HL : 0 <= 45) by lra.
  exact (phase_fractions_bounds 1.789e-5 110.4 0.82 40000 10 3500 0.45 45
           Hsc HH HM HA HR HT HL).
Defined.

(** ** The atmosphere object *)

Lemma Rpower_succ (x k : R) : 0 < x -> Rpower x k = Rpower x (k - 1) * x.
Proof.
  intros Hx. rewrite <- (Rpower_1 x Hx) at 3.
  rewrite <- Rpower_plus. f_equal. ring.
Qed.

Lemma pressure_at_pos (h : R) : 0 < Atmosphere.pressure_at h.
Proof.
  destruct (Rlt_dec h Constants.altitude_junction) as [L|L].
  - rewrite pressure_at_troposphere by assumption.
    apply Rmult_lt_0_compat; [unfold Constants.pressure_zero; lra|].
    apply Rpower_pos.
  - rewrite pressure_at_stratosphere by lra.
    apply Rmult_lt_0_compat; [|apply exp_pos].
    apply Rmult_lt_0_compat; [unfold Constants.pressure_zero; lra|].
    apply Rpower_pos.
Qed.

Lemma density_at_pos (h : R) : 0 < Atmosphere.density_at h.
Proof.
  destruct (Rlt_dec h Constants.altitude_junction) as [L|L].
  - rewrite density_at_troposphere by assumption.
    apply Rmult_lt_0_compat; [unfold Constants.density_zero; lra|].
    apply Rpower_pos.
  - rewrite density_at_stratosphere by lra.
    apply Rmult_lt_0_compat; [|apply exp_pos].
    apply Rmult_lt_0_compat; [unfold Constants.density_zero; lra|].
    apply Rpower_pos.
Qed.

Lemma compute_gravity_Ok (h : R) :
  Constants.earth_radius + h <> 0 ->
  Atmosphere.compute_gravity h
  = Ok (Constants.gravity_zero
        * (Constants.earth_radius / (Constants.earth_radius + h)) ^ 2).
Proof.
  intros H. unfold Atmosphere.compute_gravity.
  rewrite py_div_Ok by assumption. reflexivity.
Qed.

(** X12.  With a positive Sutherland constant and an altitude between minus
    the Earth radius and 100000, [Atmosphere(h)] raises [ZeroDivisionError]
    exactly when [h] is minus the Earth radius (the gravity law divides by
    zero); at any other altitude of that range it builds an object whose
    temperature, pressure, density and speed of sound are positive, with the
    Celsius temperature 273.15 below the Kelvin one. *)
Theorem atmosphere_init_total :
  forall viscosity_zero sutherlands_constant h : R,
    0 < sutherlands_constant ->
    - Constants.earth_radius <= h <= 100000 ->
    (h = - Constants.earth_radius ->
     Atmosphere.init viscosity_zero sutherlands_constant h
     = Raise ZeroDivisionError)
    /\ (h <> - Constants.earth_radius ->
        exists a : Atmosphere.t,
          Atmosphere.init viscosity_zero sutherlands_constant h = Ok a
          /\ Atmosphere.altitude a = h
          /\ Atmosphere.temperature_K a = Atmosphere.temperature_at h
          /\ Atmosphere.temperature_C a = Atmosphere.temperature_K a - 273.15
          /\ Atmosphere.pressure a = Atmosphere.pressure_at h
          /\ Atmosphere.density a = Atmosphere.density_at h
          /\ Atmosphere.sound_speed a = Atmosphere.sound_speed_at h
          /\ Atmosphere.compute_gravity h = Ok (Atmosphere.gravity a)
          /\ 216.66 <= Atmosphere.temperature_K a
          /\ 0 < Atmosphere.pressure a
          /\ 0 < Atmosphere.density a
          /\ 0 < Atmosphere.sound_speed a).
Proof.
  intros vz sc h Hsc _.
  destruct (compute_air_viscosity_Ok vz sc Hsc h) as (mu & Hmu).
  split.
  - intros ->. unfold Atmosphere.init. rewrite Hmu. simpl.
    unfold Atmosphere.compute_gravity, py_div.
    destruct (Req_dec_T (Constants.earth_radius + - Constants.earth_radius) 0)
      as [E|E]; [reflexivity|]. exfalso. apply E. ring.
  - intros Hne.
    assert (Hg : Constants.earth_radius + h <> 0) by (intros E; apply Hne; lra).
    eexists. split.
    + unfold Atmosphere.init. rewrite Hmu. simpl.
      rewrite (compute_gravity_Ok h Hg). reflexivity.
    + simpl. repeat (split; [reflexivity|]).
      split; [apply compute_gravity_Ok; assumption|].
      split; [exact (compute_temperature_bound h)|].
      split; [apply pressure_at_pos|].
      split; [apply density_at_pos | apply sound_speed_pos].
Qed.

Lemma atmosphere_init_total_witness :
  exists a : Atmosphere.t,
    Atmosphere.init 1.789e-5 110.4 0 = Ok a
    /\ 0 < Atmosphere.pressure a /\ 0 < Atmosphere.density a.
Proof.
  assert (Hsc : 0 < 110.4) by lra.
  assert (Hr : - Constants.earth_radius <= 0 <= 100000)
    by (unfold Constants.earth_radius; lra).
  assert (Hne : 0 <> - Constants.earth_radius)
    by (unfold Constants.earth_radius; lra).
  destruct (proj2 (atmosphere_init_total 1.789e-5 110.4 0 Hsc Hr) Hne)
    as (a & Ha & _ & _ & _ & _ & _ & _ & _ & _ & Hp & Hd & _).
  exists a. repeat split; assumption.
Defined.

(** X13.  Pressure, density and temperature keep the sea-level gas relation
    at every altitude: [p / (rho * T)] is [p0 / (rho0 * T0)], in the
    troposphere and in the stratosphere. *)
Theorem gas_relation_invariant :
  forall h : R,
    Atmosphere.pressure_at h
    * (Constants.density_zero * Constants.temperature_zero)
    = Constants.pressure_zero
      * (Atmosphere.density_at h * Atmosphere.temperature_at h).
Proof.
  intros h. unfold Atmosphere.temperature_at.
  assert (HT0 : 0 < Constants.temperature_zero)
    by (unfold Constants.temperature_zero; lra).
  destruct (Rlt_dec h Constants.altitude_junction) as [L|L].
  - rewrite pressure_at_troposphere, density_at_troposphere by assumption.
    rewrite compute_temperature_troposphere by assumption.
    assert (Hr := temperature_ratio_pos h).
    rewrite compute_temperature_troposphere in Hr by assumption.
    rewrite (Rpower_succ _ (- Constants.gravity_zero / _) Hr).
    field. lra.
  - rewrite pressure_at_stratosphere, density_at_stratosphere by lra.
    rewrite compute_temperature_stratosphere by lra.
    assert (Hr : 0 < Constants.temperature_junction / Constants.temperature_zero)
      by (unfold Constants.temperature_junction, Constants.temperature_zero;
          lra).
    rewrite (Rpower_succ _ (- Constants.gravity_zero / _) Hr).
    field. lra.
Qed.

Lemma temperature_at_decreasing (h1 h2 : R) :
  h1 < h2 ->
  Atmosphere.temperature_at h2 <= Atmosphere.temperature_at h1
  /\ (h1 < Constants.altitude_junction ->
      Atmosphere.temperature_at h2 < Atmosphere.temperature_at h1).
Proof.
  intros H. unfold Atmosphere.temperature_at, Atmosphere.compute_temperature.
  destruct (Rlt_dec h1 Constants.altitude_junction) as [L1|L1];
  destruct (Rlt_dec h2 Constants.altitude_junction) as [L2|L2];
  revert L1 L2;
  unfold Constants.altitude_junction, Constants.temperature_zero,
    Constants.temperature_variation_altitudem, Constants.temperature_junction;
  intros L1 L2; split; try intros L; lra.
Qed.

(** X14.  Temperature and speed of sound never increase with the altitude;
    they decrease strictly from any altitude below the junction, are never
    below their junction values (216.66 K and [sqrt(1.4 * 286.9 * 216.66)]),
    and are at most their sea-level values for an altitude that is not
    negative. *)
Theorem temperature_and_sound_speed_decreasing :
  forall h1 h2 : R, h1 < h2 ->
    Atmosphere.temperature_at h2 <= Atmosphere.temperature_at h1
    /\ Atmosphere.sound_speed_at h2 <= Atmosphere.sound_speed_at h1
    /\ (h1 < 11000 ->
        Atmosphere.temperature_at h2 < Atmosphere.temperature_at h1
        /\ Atmosphere.sound_speed_at h2 < Atmosphere.sound_speed_at h1)
    /\ 216.66 <= Atmosphere.temperature_at h2
    /\ sqrt (1.4 * 286.9 * 216.66) <= Atmosphere.sound_speed_at h2
    /\ (0 <= h1 ->
        Atmosphere.temperature_at h1 <= 288.16
        /\ Atmosphere.sound_speed_at h1 <= sqrt (1.4 * 286.9 * 288.16)).
Proof.
  intros h1 h2 H.
  destruct (temperature_at_decreasing h1 h2 H) as [Hle Hlt].
  assert (Hg : 0 < Constants.gamma_air * Constants.R_air)
    by (unfold Constants.gamma_air, Constants.R_air; lra).
  split; [assumption|]. split.
  { unfold Atmosphere.sound_speed_at, Atmosphere.compute_sound_speed.
    apply sqrt_le_1_alt. apply Rmult_le_compat_l; [lra | exact Hle]. }
  split.
  { intros L.
    assert (L' : h1 < Constants.altitude_junction)
      by (unfold Constants.altitude_junction; lra).
    specialize (Hlt L'). split; [assumption|].
    unfold Atmosphere.sound_speed_at, Atmosphere.compute_sound_speed.
    apply sqrt_lt_1_alt. split.
    - apply Rmult_le_pos; [lra|].
      generalize (compute_temperature_bound h2).
      unfold Constants.temperature_junction. lra.
    - apply Rmult_lt_compat_l; [lra | exact Hlt]. }
  split; [exact (compute_temperature_bound h2)|].
  split.
  { unfold Atmosphere.sound_speed_at, Atmosphere.compute_sound_speed.
    apply sqrt_le_1_alt.
    generalize (compute_temperature_bound h2).
    unfold Constants.temperature_junction, Constants.gamma_air,
      Constants.R_air.
    lra. }
  intros H0.
  assert (HT : Atmosphere.temperature_at h1 <= 288.16).
  { unfold Atmosphere.temperature_at, Atmosphere.compute_temperature.
    destruct (Rlt_dec h1 Constants.altitude_junction);
      unfold Constants.temperature_zero,
        Constants.temperature_variation_altitudem,
        Constants.temperature_junction; lra. }
  split; [assumption|].
  unfold Atmosphere.sound_speed_at, Atmosphere.compute_sound_speed.
  apply sqrt_le_1_alt.
  unfold Constants.gamma_air, Constants.R_air. unfold Atmosphere.temperature_at in HT.
  lra.
Qed.

Lemma temperature_and_sound_speed_decreasing_witness :
  Atmosphere.sound_speed_at 5000 < Atmosphere.sound_speed_at 0.
Proof.
  assert (H : 0 < 5000) by lra.
  assert (L : 0 < 11000) by lra.
  exact (proj2 (proj1 (proj2 (proj2
           (temperature_and_sound_speed_decreasing 0 5000 H))) L)).
Defined.

(** X15.  Above minus the Earth radius the gravity law is defined and
    positive and decreases strictly with the altitude; it gives [g0] at
    altitude 0. *)
Theorem gravity_decreasing :
  forall h1 h2 : R, - Constants.earth_radius < h1 < h2 ->
    exists g1 g2 : R,
      Atmosphere.compute_gravity h1 = Ok g1
      /\ Atmosphere.compute_gravity h2 = Ok g2
      /\ 0 < g2 < g1
      /\ Atmosphere.compute_gravity 0 = Ok Constants.gravity_zero.
Proof.
  intros h1 h2 [H1 H12].
  assert (HR : 0 < Constants.earth_radius)
    by (unfold Constants.earth_radius; lra).
  assert (Hg0 : 0 < Constants.gravity_zero)
    by (unfold Constants.gravity_zero; lra).
  do 2 eexists.
  split; [apply compute_gravity_Ok; lra|].
  split; [apply compute_gravity_Ok; lra|].
  split.
  - set (q1 := Constants.earth_radius / (Constants.earth_radius + h1)).
    set (q2 := Constants.earth_radius / (Constants.earth_radius + h2)).
    assert (Hq2 : 0 < q2) by (apply Rdiv_lt_0_compat; lra).
    assert (Hq : q2 < q1).
    { unfold q1, q2, Rdiv. apply Rmult_lt_compat_l; [assumption|].
      apply Rinv_lt_contravar; [|lra].
      apply Rmult_lt_0_compat; lra. }
    clearbody q1 q2.
    assert (Hs2 : 0 < q2 ^ 2) by (simpl; nra).
    assert (Hs : q2 ^ 2 < q1 ^ 2) by (simpl; nra).
    split; [apply Rmult_lt_0_compat; assumption|].
    apply Rmult_lt_compat_l; assumption.
  - rewrite compute_gravity_Ok by lra. f_equal.
    rewrite Rplus_0_r. unfold Rdiv. rewrite Rinv_r by lra. ring.
Qed.

Lemma gravity_decreasing_witness :
  exists g1 g2 : R,
    Atmosphere.compute_gravity 0 = Ok g1
    /\ Atmosphere.compute_gravity 11000 = Ok g2
    /\ 0 < g2 < g1.
Proof.
  assert (H : - Constants.earth_radius < 0 < 11000)
    by (unfold Constants.earth_radius; lra).
  destruct (gravity_decreasing 0 11000 H) as (g1 & g2 & H1 & H2 & Hlt & _).
  exists g1, g2. repeat split; first [assumption | apply Hlt].
Defined.

(** X16.  Sutherland's law is referenced to the sea-level temperature
    288.16 K: there it gives [viscosity_zero].  For positive constants it is
    defined and positive at every positive temperature and increases
    strictly with the temperature. *)
Theorem viscosity_increasing :
  forall viscosity_zero sutherlands_constant T1 T2 : R,
    0 < viscosity_zero -> 0 < sutherlands_constant -> 0 < T1 < T2 ->
    exists mu1 mu2 : R,
      Atmosphere.compute_air_viscosity viscosity_zero sutherlands_constant T1
      = Ok mu1
      /\ Atmosphere.compute_air_viscosity viscosity_zero sutherlands_constant
           T2 = Ok mu2
      /\ 0 < mu1 < mu2
      /\ Atmosphere.compute_air_viscosity viscosity_zero sutherlands_constant
           Constants.temperature_zero = Ok viscosity_zero.
Proof.
  intros vz sc T1 T2 Hvz Hsc [HT1 HT12].
  assert (HT0 : 0 < Constants.temperature_zero)
    by (unfold Constants.temperature_zero; lra).
  unfold Atmosphere.compute_air_viscosity, py_pow.
  do 2 eexists.
  split; [apply py_div_Ok; lra|].
  split; [apply py_div_Ok; lra|].
  split.
  - set (T0 := Constants.temperature_zero) in *.
    assert (Hu1 : 0 < T1 / T0) by (apply Rdiv_lt_0_compat; lra).
    assert (Hu2 : 0 < T2 / T0) by (apply Rdiv_lt_0_compat; lra).
    assert (Hu : T1 / T0 < T2 / T0).
    { unfold Rdiv. apply Rmult_lt_compat_r; [apply Rinv_0_lt_compat|]; lra. }
    rewrite (Rpower_succ (T1 / T0) (3 / 2) Hu1).
    rewrite (Rpower_succ (T2 / T0) (3 / 2) Hu2).
    set (p1 := Rpower (T1 / T0) (3 / 2 - 1)).
    set (p2 := Rpower (T2 / T0) (3 / 2 - 1)).
    assert (Hp1 : 0 < p1) by apply Rpower_pos.
    assert (Hp : p1 < p2).
    { apply Rlt_Rpower_l; [lra | split; assumption]. }
    set (q1 := T1 / T0 / (T1 + sc)). set (q2 := T2 / T0 / (T2 + sc)).
    assert (Hq1 : 0 < q1) by (apply Rdiv_lt_0_compat; lra).
    assert (Hq : q1 < q2).
    { unfold q1, q2.
      assert (E : T2 / T0 / (T2 + sc) - T1 / T0 / (T1 + sc)
                  = sc * (T2 - T1) / (T0 * (T2 + sc) * (T1 + sc)))
        by (field; lra).
      assert (0 < sc * (T2 - T1) / (T0 * (T2 + sc) * (T1 + sc))).
      { apply Rdiv_lt_0_compat; [nra|].
        apply Rmult_lt_0_compat; [apply Rmult_lt_0_compat|]; lra. }
      lra. }
    replace (vz * (p1 * (T1 / T0)) * (T0 + sc) / (T1 + sc))
      with (vz * (T0 + sc) * (p1 * q1)) by (unfold q1; field; lra).
    replace (vz * (p2 * (T2 / T0)) * (T0 + sc) / (T2 + sc))
      with (vz * (T0 + sc) * (p2 * q2)) by (unfold q2; field; lra).
    assert (Hc : 0 < vz * (T0 + sc)) by (apply Rmult_lt_0_compat; lra).
    assert (0 < p1 * q1) by (apply Rmult_lt_0_compat; assumption).
    assert (p1 * q1 < p2 * q2) by nra.
    split; [apply Rmult_lt_0_compat; assumption|].
    apply Rmult_lt_compat_l; assumption.
  - rewrite py_div_Ok by lra. f_equal.
    replace (Constants.temperature_zero / Constants.temperature_zero) with 1
      by (field; lra).
    unfold Rpower. rewrite ln_1, Rmult_0_r, exp_0. field. lra.
Qed.

Lemma viscosity_increasing_witness :
  exists mu1 mu2 : R,
    Atmosphere.compute_air_viscosity 1.789e-5 110.4 216.66 = Ok mu1
    /\ Atmosphere.compute_air_viscosity 1.789e-5 110.4 288.16 = Ok mu2
    /\ 0 < mu1 < mu2.
Proof.
  assert (Hvz : 0 < 1.789e-5) by lra.
  assert (Hsc : 0 < 110.4) by lra.
  assert (HT : 0 < 216.66 < 288.16) by lra.
  destruct (viscosity_increasing 1.789e-5 110.4 216.66 288.16 Hvz Hsc HT)
    as (m1 & m2 & H1 & H2 & Hlt & _).
  exists m1, m2. repeat split; first [assumption | apply Hlt].
Defined.

(** ** The scripts never report a weight *)

(** X18.  [itertow] of the two [plane_mass.py] scripts never returns and
    never prints, whatever its arguments and whatever the root-finder does:
    the first evaluation of the residual raises.  An unknown type gives
    [ValueError]; a type of the table gives [TypeError] in [PyPlanePackage]
    ([vitesse] called with one argument) and [NameError] in
    [Plane_Design_Package] ([sound_speed] is not defined). *)
Theorem itertow_never_prints :
  forall (v : PlaneMass.variant) (hybrd : Scipy.solver) (Type_ : string)
         (M_cruise H_cruise A TSFC T_loiter Fuel_res Fuel_trap Wpayload
            Range : R) (out : PlaneMass.stdout),
    exists e : exn,
      PlaneMass.itertow v hybrd Type_ M_cruise H_cruise A TSFC T_loiter
        Fuel_res Fuel_trap Wpayload Range out = (Raise e, out)
      /\ (~ In (lower Type_) Weight.categories ->
          e = ValueError "Unknown aircraft type")
      /\ (In (lower Type_) Weight.categories ->
          e = match v with
              | PlaneMass.PyPlanePackage => TypeError
              | PlaneMass.Plane_Design_Package => NameError
              end).
Proof.
  intros v hybrd Type_ M H A TSFC Tl Fr Ft Wp Rg out.
  assert (Hres : exists e : exn,
             PlaneMass.fpoids v Wp Rg Type_ Wp TSFC Tl A Fr Ft = Raise e
             /\ (~ In (lower Type_) Weight.categories ->
                 e = ValueError "Unknown aircraft type")
             /\ (In (lower Type_) Weight.categories ->
                 e = match v with
                     | PlaneMass.PyPlanePackage => TypeError
                     | PlaneMass.Plane_Design_Package => NameError
                     end)).
  { unfold PlaneMass.fpoids, PlaneMass.structure_factor.
    generalize (structure_constants_spec (lower Type_)).
    unfold Weight.structure_factor.
    destruct (Weight.structure_constants (lower Type_)) as [[a c]|e0].
    - intros (Hin & _). simpl.
      unfold PlaneMass.fcruise, PlaneMass.cruise_speed.
      destruct v; simpl; eexists; (split; [reflexivity|]);
        (split; [intros Hn; contradiction | reflexivity]).
    - intros (Hn & ->). simpl. eexists. split; [reflexivity|].
      split; [reflexivity | intros Hin; contradiction]. }
  destruct Hres as (e & He & H1 & H2).
  exists e. split; [|split; assumption].
  unfold PlaneMass.itertow.
  erewrite fsolve_first_evaluation; [reflexivity | exact He].
Qed.

(** ** The single-layer atmosphere *)

Lemma simple_gravity_Ok (h : R) :
  6.371e6 + h <> 0 ->
  SimpleAtmosphere.compute_gravity h
  = Ok (9.81 * (6.371e6 / (6.371e6 + h)) ^ 2).
Proof.
  intros H. unfold SimpleAtmosphere.compute_gravity.
  rewrite py_div_Ok by assumption. reflexivity.
Qed.

Lemma simple_init_float (h : R) :
  -6.371e6 < h -> h <= 44330 ->
  SimpleAtmosphere.init h
  = Ok (SimpleAtmosphere.mk h (288.15 - 0.0065 * h)
          (288.15 - 0.0065 * h - 273.15)
          (SimpleAtmosphere.PyFloat
             (101325 * Rpower (1 - 0.0000225577 * h) 5.25588))
          (SimpleAtmosphere.PyFloat
             (101325 * Rpower (1 - 0.0000225577 * h) 5.25588 * 0.0289644
              / (8.31447 * (288.15 - 0.0065 * h))))
          (9.81 * (6.371e6 / (6.371e6 + h)) ^ 2)).
Proof.
  intros Hlo Hhi.
  unfold SimpleAtmosphere.init, SimpleAtmosphere.compute_pressure,
    SimpleAtmosphere.float_pow, SimpleAtmosphere.compute_temperature,
    SimpleAtmosphere.compute_density.
  destruct (Rlt_dec 0 (1 - 0.0000225577 * h)) as [Hb|Hb]; [|lra].
  simpl.
  destruct (Req_dec_T (8.31447 * (288.15 - 0.0065 * h)) 0) as [E|E]; [lra|].
  simpl. rewrite simple_gravity_Ok by lra. reflexivity.
Qed.

(** X19.  Between minus the Earth radius and 44330 m the single-layer class
    builds an object whose pressure and density are positive floats, and
    both decrease strictly with the altitude. *)
Theorem simple_atmosphere_decreasing :
  forall h1 h2 : R, -6.371e6 < h1 < h2 -> h2 <= 44330 ->
    exists (a1 a2 : SimpleAtmosphere.t) (p1 p2 d1 d2 : R),
      SimpleAtmosphere.init h1 = Ok a1 /\ SimpleAtmosphere.init h2 = Ok a2
      /\ SimpleAtmosphere.pressure a1 = SimpleAtmosphere.PyFloat p1
      /\ SimpleAtmosphere.pressure a2 = SimpleAtmosphere.PyFloat p2
      /\ SimpleAtmosphere.density a1 = SimpleAtmosphere.PyFloat d1
      /\ SimpleAtmosphere.density a2 = SimpleAtmosphere.PyFloat d2
      /\ 0 < p2 < p1 /\ 0 < d2 < d1.
Proof.
  intros h1 h2 [H1 H12] H2.
  do 6 eexists.
  split; [apply simple_init_float; lra|].
  split; [apply simple_init_float; lra|].
  simpl. do 4 (split; [reflexivity|]).
  set (b1 := 1 - 0.0000225577 * h1). set (b2 := 1 - 0.0000225577 * h2).
  set (T1 := 288.15 - 0.0065 * h1). set (T2 := 288.15 - 0.0065 * h2).
  assert (Hb2 : 0 < b2) by (unfold b2; lra).
  assert (Hb : b2 < b1) by (unfold b1, b2; lra).
  assert (HT2 : 0 < T2) by (unfold T2; lra).
  assert (HT : T2 < T1) by (unfold T1, T2; lra).
  assert (Hp : Rpower b2 5.25588 < Rpower b1 5.25588)
    by (apply Rlt_Rpower_l; [lra | split; assumption]).
  assert (Hp2 := Rpower_pos b2 5.25588).
  split; [lra|].
  assert (Hq : Rpower b2 (5.25588 - 1) < Rpower b1 (5.25588 - 1))
    by (apply Rlt_Rpower_l; [lra | split; assumption]).
  assert (Hq2 := Rpower_pos b2 (5.25588 - 1)).
  assert (Hr2 : 0 < b2 / T2) by (apply Rdiv_lt_0_compat; assumption).
  assert (Hr : b2 / T2 < b1 / T1).
  { assert (E : b1 / T1 - b2 / T2
                = (0.0000225577 * 288.15 - 0.0065) * (h2 - h1) / (T1 * T2))
      by (unfold b1, b2, T1, T2; field; lra).
    assert (0 < (0.0000225577 * 288.15 - 0.0065) * (h2 - h1) / (T1 * T2)).
    { apply Rdiv_lt_0_compat; [|apply Rmult_lt_0_compat; lra].
      apply Rmult_lt_0_compat; lra. }
    lra. }
  rewrite (Rpower_succ b1 5.25588) by lra.
  rewrite (Rpower_succ b2 5.25588) by lra.
  replace (101325 * (Rpower b1 (5.25588 - 1) * b1) * 0.0289644
           / (8.31447 * T1))
    with (101325 * 0.0289644 / 8.31447 * (Rpower b1 (5.25588 - 1) * (b1 / T1)))
    by (field; lra).
  replace (101325 * (Rpower b2 (5.25588 - 1) * b2) * 0.0289644
           / (8.31447 * T2))
    with (101325 * 0.0289644 / 8.31447 * (Rpower b2 (5.25588 - 1) * (b2 / T2)))
    by (field; lra).
  assert (0 < Rpower b2 (5.25588 - 1) * (b2 / T2))
    by (apply Rmult_lt_0_compat; assumption).
  assert (Rpower b2 (5.25588 - 1) * (b2 / T2)
          < Rpower b1 (5.25588 - 1) * (b1 / T1)) by nra.
  split.
  - apply Rmult_lt_0_compat; [lra | assumption].
  - apply Rmult_lt_compat_l; [lra | assumption].
Qed.

Lemma simple_atmosphere_decreasing_witness :
  exists (a1 a2 : SimpleAtmosphere.t) (p1 p2 : R),
    SimpleAtmosphere.init 0 = Ok a1 /\ SimpleAtmosphere.init 1000 = Ok a2
    /\ SimpleAtmosphere.pressure a1 = SimpleAtmosphere.PyFloat p1
    /\ SimpleAtmosphere.pressure a2 = SimpleAtmosphere.PyFloat p2
    /\ p2 < p1.
Proof.
  assert (H : -6.371e6 < 0 < 1000) by lra.
  assert (H2 : 1000 <= 44330) by lra.
  destruct (simple_atmosphere_decreasing 0 1000 H H2)
    as (a1 & a2 & p1 & p2 & d1 & d2 & I1 & I2 & P1 & P2 & _ & _ & Hp & _).
  exists a1, a2, p1, p2. repeat split; first [assumption | apply Hp].
Defined.

(** X20.  The single-layer class raises [ZeroDivisionError] where its
    temperature [288.15 - 0.0065 * h] is zero (the gas law divides by it)
    and at minus the Earth radius (the gravity law).  From 44330.77 m up to
    1e9 m it raises nothing: it builds an object whose Kelvin temperature is
    negative and whose pressure and density are complex numbers. *)
Theorem simple_atmosphere_edges :
  forall h : R,
    (288.15 - 0.0065 * h = 0 \/ h = -6.371e6 ->
     SimpleAtmosphere.init h = Raise ZeroDivisionError)
    /\ (44330.77 <= h <= 1e9 ->
        exists a : SimpleAtmosphere.t,
          SimpleAtmosphere.init h = Ok a
          /\ SimpleAtmosphere.temperature_K a < 0
          /\ SimpleAtmosphere.pressure a = SimpleAtmosphere.PyComplex
          /\ SimpleAtmosphere.density a = SimpleAtmosphere.PyComplex).
Proof.
  intros h.
  unfold SimpleAtmosphere.init, SimpleAtmosphere.compute_density,
    SimpleAtmosphere.compute_temperature, SimpleAtmosphere.compute_gravity,
    SimpleAtmosphere.compute_pressure, SimpleAtmosphere.float_pow, py_div.
  split.
  - intros [E|E].
    + destruct (Req_dec_T (8.31447 * (288.15 - 0.0065 * h)) 0) as [ET|ET];
        [reflexivity | exfalso; apply ET; rewrite E; ring].
    + destruct (Req_dec_T (8.31447 * (288.15 - 0.0065 * h)) 0) as [ET|ET];
        [reflexivity|].
      destruct (Req_dec_T (6.371e6 + h) 0) as [EG|EG]; [|exfalso; lra].
      destruct (Rlt_dec 0 (1 - 0.0000225577 * h));
        [|destruct (Req_dec_T (1 - 0.0000225577 * h) 0)]; reflexivity.
  - intros [Hlo Hhi].
    destruct (Rlt_dec 0 (1 - 0.0000225577 * h)) as [Hb|Hb]; [exfalso; lra|].
    destruct (Req_dec_T (1 - 0.0000225577 * h) 0) as [Hz|Hz]; [exfalso; lra|].
    simpl.
    destruct (Req_dec_T (8.31447 * (288.15 - 0.0065 * h)) 0) as [ET|ET];
      [exfalso; lra|].
    simpl.
    destruct (Req_dec_T (6.371e6 + h) 0) as [EG|EG]; [exfalso; lra|].
    eexists. split; [reflexivity|]. simpl.
    split; [lra|]. split; reflexivity.
Qed.

Lemma simple_atmosphere_edges_witness :
  SimpleAtmosphere.init (-6.371e6) = Raise ZeroDivisionError.
Proof.
  assert (H : 288.15 - 0.0065 * -6.371e6 = 0 \/ -6.371e6 = -6.371e6)
    by (right; reflexivity).
  exact (proj1 (simple_atmosphere_edges (-6.371e6)) H).
Defined.

(** ** Wing loadings *)

Lemma atmosphere_init_density (viscosity_zero sutherlands_constant h : R) :
  0 < sutherlands_constant -> Constants.earth_radius + h <> 0 ->
  exists a : Atmosphere.t,
    Atmosphere.init viscosity_zero sutherlands_constant h = Ok a
    /\ Atmosphere.density a = Atmosphere.density_at h.
Proof.
  intros Hsc Hg.
  destruct (compute_air_viscosity_Ok viscosity_zero sutherlands_constant Hsc h)
    as (mu & Hmu).
  eexists. split.
  - unfold Atmosphere.init. rewrite Hmu. simpl.
    rewrite (compute_gravity_Ok h Hg). reflexivity.
  - reflexivity.
Qed.

Lemma induced_drag_factor_Ok (aspect_ratio : R) :
  aspect_ratio <> 0 ->
  py_div 1 (PI * aspect_ratio * WingLoading.oswald_efficiency aspect_ratio)
  = Ok (1 / (PI * aspect_ratio * 0.8)).
Proof.
  intros H. unfold WingLoading.oswald_efficiency. apply py_div_Ok.
  assert (HP := PI_RGT_0).
  intros E. apply Rmult_integral in E. destruct E as [E|E]; [|lra].
  apply Rmult_integral in E. destruct E as [E|E]; [lra | contradiction].
Qed.

Lemma np_sqrt_Finite (r : R) :
  0 <= r -> WingLoading.np_sqrt (Finite r) = Finite (sqrt r).
Proof.
  intros H. unfold WingLoading.np_sqrt.
  destruct (Rle_dec 0 r); [reflexivity | contradiction].
Qed.

(** X21.  For a positive aspect ratio and a drag coefficient that is not
    negative the propeller wing loading is
    [0.5 * rho * V^2 * sqrt (cd0 * pi * AR * 0.8)], and the jet wing loading
    is the propeller one divided by [sqrt 3]; the engine type is matched
    without regard to case. *)
Theorem wing_loading_cruise_value :
  forall (viscosity_zero sutherlands_constant : R)
         (zero_lift_drag_coefficient aspect_ratio cruise_altitude speed : R)
         (prop_type jet_type : string),
    0 < sutherlands_constant ->
    Constants.earth_radius + cruise_altitude <> 0 ->
    0 < aspect_ratio -> 0 <= zero_lift_drag_coefficient ->
    lower prop_type = "prop"%string -> lower jet_type = "jet"%string ->
    exists p : R,
      p = Atmosphere.density_at cruise_altitude * speed ^ 2 * 0.5
          * sqrt (zero_lift_drag_coefficient * (PI * aspect_ratio * 0.8))
      /\ WingLoading.wing_loading_cruise viscosity_zero sutherlands_constant
           zero_lift_drag_coefficient aspect_ratio cruise_altitude speed
           prop_type = Ok (Finite p)
      /\ WingLoading.wing_loading_cruise viscosity_zero sutherlands_constant
           zero_lift_drag_coefficient aspect_ratio cruise_altitude speed
           jet_type = Ok (Finite (p / sqrt 3)).
Proof.
  intros vz sc cd0 AR alt V pt jt Hsc Hg HAR Hcd Hp Hj.
  destruct (atmosphere_init_density vz sc alt Hsc Hg) as (a & Ha & Hd).
  assert (HP := PI_RGT_0).
  assert (Hx : 0 < PI * AR * 0.8)
    by (apply Rmult_lt_0_compat; [apply Rmult_lt_0_compat|]; lra).
  assert (Hk : 0 < 1 / (PI * AR * 0.8)) by (apply Rdiv_lt_0_compat; lra).
  assert (Hq : cd0 / (1 / (PI * AR * 0.8)) = cd0 * (PI * AR * 0.8))
    by (field; lra).
  assert (Hq0 : 0 <= cd0 * (PI * AR * 0.8)) by (apply Rmult_le_pos; lra).
  assert (Hq3 : cd0 / (3 * (1 / (PI * AR * 0.8)))
                = cd0 * (PI * AR * 0.8) / 3) by (field; lra).
  eexists. split; [reflexivity|]. split.
  - unfold WingLoading.wing_loading_cruise. rewrite Ha. cbn [bind].
    rewrite induced_drag_factor_Ok by lra. cbn [bind]. rewrite Hp.
    rewrite String.eqb_refl.
    rewrite py_div_Ok by lra. cbn [bind ret].
    rewrite Hq, np_sqrt_Finite by assumption. rewrite Hd. reflexivity.
  - unfold WingLoading.wing_loading_cruise. rewrite Ha. cbn [bind].
    rewrite induced_drag_factor_Ok by lra. cbn [bind]. rewrite Hj.
    change (("jet" =? "prop")%string) with false.
    rewrite String.eqb_refl.
    rewrite py_div_Ok by lra. cbn [bind ret].
    rewrite Hq3, np_sqrt_Finite by lra. rewrite Hd.
    rewrite sqrt_div by lra. unfold np_mul, np_lift2.
    unfold ret. apply f_equal, f_equal.
    field. apply Rgt_not_eq, sqrt_lt_R0. lra.
Qed.

Lemma wing_loading_cruise_value_witness :
  exists p : R,
    WingLoading.wing_loading_cruise 1.789e-5 110.4 0.02 10 10000 200 "Prop"
    = Ok (Finite p)
    /\ WingLoading.wing_loading_cruise 1.789e-5 110.4 0.02 10 10000 200 "JET"
       = Ok (Finite (p / sqrt 3)).
Proof.
  assert (Hsc : 0 < 110.4) by lra.
  assert (Hg : Constants.earth_radius + 10000 <> 0)
    by (unfold Constants.earth_radius; lra).
  assert (HAR : 0 < 10) by lra.
  assert (Hcd : 0 <= 0.02) by lra.
  destruct (wing_loading_cruise_value 1.789e-5 110.4 0.02 10 10000 200
              "Prop" "JET" Hsc Hg HAR Hcd eq_refl eq_refl)
    as (p & _ & H1 & H2).
  exists p. split; assumption.
Defined.

(** X22.  [wing_loading_cruise] refuses an engine type that is neither 'prop'
    nor 'jet' with [ValueError], once the atmosphere and the induced-drag
    factor are computed; an aspect ratio of 0 raises [ZeroDivisionError]
    before the engine type is looked at. *)
Theorem wing_loading_cruise_errors :
  forall (viscosity_zero sutherlands_constant : R)
         (zero_lift_drag_coefficient aspect_ratio cruise_altitude speed : R)
         (engine_type : string),
    0 < sutherlands_constant ->
    Constants.earth_radius + cruise_altitude <> 0 ->
    (aspect_ratio = 0 ->
     WingLoading.wing_loading_cruise viscosity_zero sutherlands_constant
       zero_lift_drag_coefficient aspect_ratio cruise_altitude speed
       engine_type = Raise ZeroDivisionError)
    /\ (aspect_ratio <> 0 ->
        lower engine_type <> "prop"%string ->
        lower engine_type <> "jet"%string ->
        WingLoading.wing_loading_cruise viscosity_zero sutherlands_constant
          zero_lift_drag_coefficient aspect_ratio cruise_altitude speed
          engine_type
        = Raise (ValueError "Invalid engine type. Must be 'prop' or 'jet'.")).
Proof.
  intros vz sc cd0 AR alt V et Hsc Hg.
  destruct (atmosphere_init_density vz sc alt Hsc Hg) as (a & Ha & _).
  split.
  - intros ->. unfold WingLoading.wing_loading_cruise. rewrite Ha. simpl.
    unfold py_div.
    destruct (Req_dec_T (PI * 0 * WingLoading.oswald_efficiency 0) 0)
      as [E|E]; [reflexivity|].
    exfalso. apply E. ring.
  - intros HAR Hp Hj. unfold WingLoading.wing_loading_cruise.
    rewrite Ha. simpl. rewrite induced_drag_factor_Ok by assumption. simpl.
    destruct (String.eqb_spec (lower et) "prop"); [contradiction|].
    destruct (String.eqb_spec (lower et) "jet"); [contradiction|].
    reflexivity.
Qed.

Lemma wing_loading_cruise_errors_witness :
  WingLoading.wing_loading_cruise 1.789e-5 110.4 0.02 10 10000 200 "turbofan"
  = Raise (ValueError "Invalid engine type. Must be 'prop' or 'jet'.").
Proof.
  assert (Hsc : 0 < 110.4) by lra.
  assert (Hg : Constants.earth_radius + 10000 <> 0)
    by (unfold Constants.earth_radius; lra).
  assert (HAR : 10 <> 0) by lra.
  assert (Hp : lower "turbofan" <> "prop"%string) by discriminate.
  assert (Hj : lower "turbofan" <> "jet"%string) by discriminate.
  exact (proj2 (wing_loading_cruise_errors 1.789e-5 110.4 0.02 10 10000 200
                  "turbofan" Hsc Hg) HAR Hp Hj).
Defined.

Lemma np_arcsin_Finite (s : R) :
  -1 <= s <= 1 -> WingLoading.np_arcsin s = Finite (asin s).
Proof.
  intros [H1 H2]. unfold WingLoading.np_arcsin.
  destruct (Rle_dec (-1) s); [|contradiction].
  destruct (Rle_dec s 1); [reflexivity | contradiction].
Qed.

Lemma np_arcsin_NonFinite (s : R) :
  s < -1 \/ 1 < s -> WingLoading.np_arcsin s = NonFinite.
Proof.
  intros H. unfold WingLoading.np_arcsin.
  destruct (Rle_dec (-1) s); [|reflexivity].
  destruct (Rle_dec s 1); [lra | reflexivity].
Qed.

Lemma cos_asin_pos (s : R) :
  -1 < s < 1 -> 0 < cos (asin s) /\ cos (asin s) * cos (asin s) = 1 - s * s.
Proof.
  intros Hs. rewrite cos_asin by lra.
  assert (H : 0 < 1 - s²) by (unfold Rsqr; nra).
  split; [apply sqrt_lt_R0; assumption|].
  rewrite sqrt_sqrt by lra. reflexivity.
Qed.

(** The larger root of [C * x^2 - a * x + cd0 * q = 0], as the climb loading
    writes it. *)
Lemma climb_quadratic_root (a cc k q cd0 : R) :
  0 < cc -> 0 < k -> 0 < q -> 0 <= a ->
  0 <= a * a - 4 * cd0 * cc * k ->
  let x := (a + sqrt (a * a - 4 * cd0 * cc * k)) / (2 * cc * k / q) in
  cc * k / q * x ^ 2 - a * x + cd0 * q = 0 /\ 0 <= x.
Proof.
  intros Hcc Hk Hq Ha HD x.
  set (r := sqrt (a * a - 4 * cd0 * cc * k)) in *.
  assert (Hr : r * r = a * a - 4 * cd0 * cc * k) by (apply sqrt_sqrt; assumption).
  assert (Hr0 : 0 <= r) by apply sqrt_pos.
  assert (Hck : 0 < cc * k) by (apply Rmult_lt_0_compat; assumption).
  split.
  - assert (E : cc * k / q * x ^ 2 - a * x + cd0 * q
                = q / (4 * (cc * k)) * (r * r - a * a + 4 * cd0 * cc * k))
      by (unfold x; field; lra).
    rewrite E, Hr. field. lra.
  - unfold x. apply Rmult_le_pos; [lra|].
    left. apply Rinv_0_lt_compat. apply Rdiv_lt_0_compat; lra.
Qed.

Section Climb.

Variables viscosity_zero sutherlands_constant : R.
Variables thrust_weight_ratio zero_lift_drag_coefficient aspect_ratio
  altitude rate_of_climb speed : R.
Hypothesis sutherland_pos : 0 < sutherlands_constant.
Hypothesis above_centre : Constants.earth_radius + altitude <> 0.
Hypothesis speed_nonzero : speed <> 0.
Hypothesis aspect_nonzero : aspect_ratio <> 0.

Let s : R := rate_of_climb / (60 * speed).
Let k : R := 1 / (PI * aspect_ratio * 0.8).
Let q : R := 0.5 * Atmosphere.density_at altitude * speed ^ 2.

(** The function once the two divisions and the atmosphere have gone
    through. *)
Lemma wing_loading_climb_unfold :
  WingLoading.wing_loading_climb viscosity_zero sutherlands_constant
    thrust_weight_ratio zero_lift_drag_coefficient aspect_ratio altitude
    rate_of_climb speed
  = let alpha := WingLoading.np_arcsin s in
    let twmin :=
      np_add (WingLoading.np_sin alpha)
        (np_mul (np_mul (Finite 2) (WingLoading.np_cos alpha))
           (WingLoading.np_sqrt (Finite (zero_lift_drag_coefficient * k)))) in
    if WingLoading.np_less thrust_weight_ratio twmin then
      Ok (negb (WingLoading.np_less thrust_weight_ratio twmin), Finite 0,
          twmin, ["Insufficient thrust"%string])
    else
      let a := np_sub (Finite thrust_weight_ratio) (WingLoading.np_sin alpha) in
      let cos2 := np_mul (WingLoading.np_cos alpha) (WingLoading.np_cos alpha) in
      Ok (negb (WingLoading.np_less thrust_weight_ratio twmin),
          WingLoading.np_divide
            (np_add a
               (WingLoading.np_sqrt
                  (np_sub (np_mul a a)
                     (np_mul
                        (np_mul (Finite (4 * zero_lift_drag_coefficient)) cos2)
                        (Finite k)))))
            (WingLoading.np_divide
               (np_mul (np_mul (Finite 2) cos2) (Finite k)) (Finite q)),
          twmin, []).
Proof.
  destruct (atmosphere_init_density viscosity_zero sutherlands_constant
              altitude sutherland_pos above_centre) as (a & Ha & Hd).
  unfold WingLoading.wing_loading_climb.
  rewrite py_div_Ok by lra. cbn [bind].
  rewrite Ha. cbn [bind].
  rewrite induced_drag_factor_Ok by assumption. cbn [bind].
  rewrite Hd. reflexivity.
Qed.

End Climb.

(** X23.  For a climb whose rate is below the speed
    ([s = rate_of_climb / (60 * speed)] strictly between -1 and 1), a
    positive aspect ratio and a drag coefficient that is not negative, the
    minimum thrust-to-weight ratio is
    [s + 2 * sqrt (1 - s^2) * sqrt (cd0 * k)] with
    [k = 1 / (pi * AR * 0.8)].  Below it the function reports insufficient
    thrust: the flag is false, the wing loading 0, and the message is
    printed.  From it on, the flag is true, nothing is printed, and the wing
    loading [x] is not negative and solves the climb equation
    [(1 - s^2) * k / q * x^2 - (T/W - s) * x + cd0 * q = 0], where [q] is the
    dynamic pressure [0.5 * rho * speed^2]. *)
Theorem wing_loading_climb_equation :
  forall (viscosity_zero sutherlands_constant : R)
         (thrust_weight_ratio zero_lift_drag_coefficient aspect_ratio
            altitude rate_of_climb speed : R),
    0 < sutherlands_constant -> Constants.earth_radius + altitude <> 0 ->
    speed <> 0 -> 0 < aspect_ratio -> 0 <= zero_lift_drag_coefficient ->
    -1 < rate_of_climb / (60 * speed) < 1 ->
    let s := rate_of_climb / (60 * speed) in
    let k := 1 / (PI * aspect_ratio * 0.8) in
    let q := 0.5 * Atmosphere.density_at altitude * speed ^ 2 in
    let twmin :=
      s + 2 * sqrt (1 - s * s) * sqrt (zero_lift_drag_coefficient * k) in
    (thrust_weight_ratio < twmin ->
     WingLoading.wing_loading_climb viscosity_zero sutherlands_constant
       thrust_weight_ratio zero_lift_drag_coefficient aspect_ratio altitude
       rate_of_climb speed
     = Ok (false, Finite 0, Finite twmin, ["Insufficient thrust"%string]))
    /\ (twmin <= thrust_weight_ratio ->
        exists x : R,
          WingLoading.wing_loading_climb viscosity_zero sutherlands_constant
            thrust_weight_ratio zero_lift_drag_coefficient aspect_ratio
            altitude rate_of_climb speed
          = Ok (true, Finite x, Finite twmin, [])
          /\ 0 <= x
          /\ (1 - s * s) * k / q * x ^ 2 - (thrust_weight_ratio - s) * x
             + zero_lift_drag_coefficient * q = 0).
Proof.
  intros vz sc twr cd0 AR alt roc V Hsc Hg HV HAR Hcd Hs0 s k q twmin.
  assert (Hs : -1 < s < 1) by exact Hs0.
  assert (HARne : AR <> 0) by lra.
  rewrite (wing_loading_climb_unfold vz sc twr cd0 AR alt roc V Hsc Hg HV HARne).
  fold s k q.
  assert (HP := PI_RGT_0).
  assert (Hk : 0 < k).
  { unfold k. apply Rdiv_lt_0_compat; [lra|].
    apply Rmult_lt_0_compat; [apply Rmult_lt_0_compat|]; lra. }
  assert (Hq : 0 < q).
  { unfold q. assert (Hd := density_at_pos alt).
    assert (0 < V ^ 2) by (simpl; nra).
    apply Rmult_lt_0_compat; [lra | assumption]. }
  destruct (cos_asin_pos s Hs) as [Hc Hcc].
  assert (Hm : 0 <= cd0 * k) by (apply Rmult_le_pos; lra).
  assert (Htw : twmin = sin (asin s) + 2 * cos (asin s) * sqrt (cd0 * k)).
  { unfold twmin. rewrite sin_asin, cos_asin by lra. unfold Rsqr. reflexivity. }
  rewrite np_arcsin_Finite by lra.
  cbv zeta. unfold WingLoading.np_sin, WingLoading.np_cos.
  rewrite np_sqrt_Finite by assumption.
  unfold np_add, np_mul, np_sub, np_lift2. rewrite <- Htw.
  unfold WingLoading.np_less.
  destruct (Rlt_dec twr twmin) as [Hlt|Hge].
  - split; [intros _; reflexivity | intros H; lra].
  - split; [intros H; contradiction|]. intros _.
    rewrite sin_asin by lra.
    set (c := cos (asin s)) in *.
    set (m := sqrt (cd0 * k)) in *.
    assert (Hm0 : 0 <= m) by apply sqrt_pos.
    assert (Hmm : m * m = cd0 * k) by (apply sqrt_sqrt; assumption).
    assert (Ha : 2 * c * m <= twr - s).
    { rewrite Htw, sin_asin in Hge by lra. lra. }
    assert (Hcm : 0 <= c * m) by (apply Rmult_le_pos; lra).
    assert (Ha0 : 0 <= twr - s) by lra.
    assert (HD : 0 <= (twr - s) * (twr - s) - 4 * cd0 * (c * c) * k).
    { assert (E : 4 * cd0 * (c * c) * k = 2 * c * m * (2 * c * m)).
      { replace (4 * cd0 * (c * c) * k) with (4 * (c * c) * (cd0 * k)) by ring.
        rewrite <- Hmm. ring. }
      rewrite E. nra. }
    assert (Hcc0 : 0 < c * c) by (apply Rmult_lt_0_compat; assumption).
    rewrite np_sqrt_Finite by assumption.
    unfold WingLoading.np_divide.
    destruct (Req_dec_T q 0) as [E|_]; [lra|].
    assert (Hden : 2 * (c * c) * k / q <> 0).
    { apply Rgt_not_eq, Rdiv_lt_0_compat; [|assumption].
      apply Rmult_lt_0_compat; lra. }
    destruct (Req_dec_T (2 * (c * c) * k / q) 0) as [E|_]; [contradiction|].
    destruct (climb_quadratic_root (twr - s) (c * c) k q cd0
                Hcc0 Hk Hq Ha0 HD) as [Hroot Hx0].
    eexists. split; [reflexivity|]. split; [exact Hx0|].
    rewrite <- Hcc. exact Hroot.
Qed.

Lemma wing_loading_climb_equation_witness :
  exists (x twmin : R),
    WingLoading.wing_loading_climb 1.789e-5 110.4 2 0 10 1000 600 100
    = Ok (true, Finite x, Finite twmin, [])
    /\ 0 <= x.
Proof.
  assert (Hsc : 0 < 110.4) by lra.
  assert (Hg : Constants.earth_radius + 1000 <> 0)
    by (unfold Constants.earth_radius; lra).
  assert (HV : 100 <> 0) by lra.
  assert (HAR : 0 < 10) by lra.
  assert (Hcd : 0 <= 0) by lra.
  assert (Hs : -1 < 600 / (60 * 100) < 1) by lra.
  assert (Htw : 600 / (60 * 100)
                + 2 * sqrt (1 - 600 / (60 * 100) * (600 / (60 * 100)))
                  * sqrt (0 * (1 / (PI * 10 * 0.8))) <= 2).
  { rewrite Rmult_0_l, sqrt_0. lra. }
  destruct (proj2 (wing_loading_climb_equation 1.789e-5 110.4 2 0 10 1000 600
                     100 Hsc Hg HV HAR Hcd Hs) Htw) as (x & Hx & Hx0 & _).
  eexists x, _. split; [exact Hx | exact Hx0].
Defined.

(** X24.  [wing_loading_climb] raises [ZeroDivisionError] for a speed of 0
    and for an aspect ratio of 0.  When the rate of climb exceeds the speed
    (the sine of the climb angle would be above 1 or below -1) it raises
    nothing and prints nothing: it reports sufficient thrust, with a wing
    loading and a minimum thrust-to-weight ratio that are [nan]. *)
Theorem wing_loading_climb_edges :
  forall (viscosity_zero sutherlands_constant : R)
         (thrust_weight_ratio zero_lift_drag_coefficient aspect_ratio
            altitude rate_of_climb speed : R),
    0 < sutherlands_constant -> Constants.earth_radius + altitude <> 0 ->
    (speed = 0 ->
     WingLoading.wing_loading_climb viscosity_zero sutherlands_constant
       thrust_weight_ratio zero_lift_drag_coefficient aspect_ratio altitude
       rate_of_climb speed = Raise ZeroDivisionError)
    /\ (speed <> 0 -> aspect_ratio = 0 ->
        WingLoading.wing_loading_climb viscosity_zero sutherlands_constant
          thrust_weight_ratio zero_lift_drag_coefficient aspect_ratio
          altitude rate_of_climb speed = Raise ZeroDivisionError)
    /\ (speed <> 0 -> aspect_ratio <> 0 ->
        rate_of_climb / (60 * speed) < -1 \/ 1 < rate_of_climb / (60 * speed) ->
        WingLoading.wing_loading_climb viscosity_zero sutherlands_constant
          thrust_weight_ratio zero_lift_drag_coefficient aspect_ratio
          altitude rate_of_climb speed
        = Ok (true, NonFinite, NonFinite, [])).
Proof.
  intros vz sc twr cd0 AR alt roc V Hsc Hg.
  destruct (atmosphere_init_density vz sc alt Hsc Hg) as (a & Ha & Hd).
  split; [|split].
  - intros ->. unfold WingLoading.wing_loading_climb, py_div.
    destruct (Req_dec_T (60 * 0) 0) as [E|E]; [reflexivity|].
    exfalso. apply E. ring.
  - intros HV ->. unfold WingLoading.wing_loading_climb.
    rewrite py_div_Ok by lra. cbn [bind]. rewrite Ha. cbn [bind].
    unfold py_div.
    destruct (Req_dec_T (PI * 0 * WingLoading.oswald_efficiency 0) 0)
      as [E|E]; [reflexivity|].
    exfalso. apply E. ring.
  - intros HV HAR Hs.
    rewrite (wing_loading_climb_unfold vz sc twr cd0 AR alt roc V Hsc Hg HV HAR).
    rewrite np_arcsin_NonFinite by assumption. reflexivity.
Qed.

Lemma wing_loading_climb_edges_witness :
  WingLoading.wing_loading_climb 1.789e-5 110.4 0.3 0.02 10 1000 9000 100
  = Ok (true, NonFinite, NonFinite, []).
Proof.
  assert (Hsc : 0 < 110.4) by lra.
  assert (Hg : Constants.earth_radius + 1000 <> 0)
    by (unfold Constants.earth_radius; lra).
  assert (HV : 100 <> 0) by lra.
  assert (HAR : 10 <> 0) by lra.
  assert (Hs : 9000 / (60 * 100) < -1 \/ 1 < 9000 / (60 * 100))
    by (right; lra).
  exact (proj2 (proj2 (wing_loading_climb_edges 1.789e-5 110.4 0.3 0.02 10
                         1000 9000 100 Hsc Hg)) HV HAR Hs).
Defined.
